(** * Yoshikei client: a shallow embedding of [custom_components/yoshikei/const.py]

    The development follows the [Yoshikei] class: [authenticate],
    [__get_data], [get_data] and [get_events].  Python values that come out
    of the JSON decoder are an inductive type, exceptions are an error type,
    and the HTTP session together with the remote server is an explicit
    state that every request threads through. *)

From Stdlib Require Import ZArith List String Ascii Bool Lia.
Import ListNotations.
Open Scope string_scope.
Open Scope Z_scope.

(* ================================================================= *)
(** ** Exceptions and results *)

(** The exceptions the code can end with.  [InvalidAuth] is the class of
    the module itself; the others are the built-in ones raised by the
    operations the code performs on decoded JSON, and [ClientError] stands
    for whatever the HTTP layer raises (transport, content type or JSON
    decoding). *)
Inductive exn : Type :=
| InvalidAuth
| KeyError
| TypeError
| ValueError
| OverflowError
| ClientError.

Inductive result (A : Type) : Type :=
| Ok (a : A)
| Err (e : exn).
Arguments Ok {A} a.
Arguments Err {A} e.

Definition rbind {A B} (r : result A) (k : A -> result B) : result B :=
  match r with
  | Ok a => k a
  | Err e => Err e
  end.

Declare Scope res_scope.
Delimit Scope res_scope with res.
Notation "x <- c ;; k" := (rbind c (fun x => k))
  (at level 61, c at next level, right associativity) : res_scope.

(* ================================================================= *)
(** ** Calendar dates

    A [datetime.date] is represented by its proleptic Gregorian ordinal
    ([date.toordinal()]): 0001-01-01 is day 1 and 9999-12-31 is
    [MAXORDINAL].  Comparison of dates is comparison of ordinals, and
    CPython adds a [timedelta] to a date on the ordinal as well. *)

Definition date := Z.

Definition is_leap (y : Z) : bool :=
  (y mod 4 =? 0) && (negb (y mod 100 =? 0) || (y mod 400 =? 0)).

Definition days_in_month (y m : Z) : Z :=
  if m =? 2 then (if is_leap y then 29 else 28)
  else if (m =? 4) || (m =? 6) || (m =? 9) || (m =? 11) then 30
  else 31.

Definition days_before_year (y : Z) : Z :=
  let p := y - 1 in p * 365 + p / 4 - p / 100 + p / 400.

Definition DAYS_BEFORE_MONTH (m : Z) : Z :=
  nth (Z.to_nat m) [0; 0; 31; 59; 90; 120; 151; 181; 212; 243; 273; 304; 334] 0.

Definition days_before_month (y m : Z) : Z :=
  DAYS_BEFORE_MONTH m + (if (2 <? m) && is_leap y then 1 else 0).

Definition ymd2ord (y m d : Z) : date :=
  days_before_year y + days_before_month y m + d.

Definition MINYEAR : Z := 1.
Definition MAXYEAR : Z := 9999.
Definition MAXORDINAL : date := 3652059.

(** [date(y, m, d)]: the constructor checks its fields. *)
Definition mkdate (y m d : Z) : result date :=
  if (MINYEAR <=? y) && (y <=? MAXYEAR)
     && (1 <=? m) && (m <=? 12)
     && (1 <=? d) && (d <=? days_in_month y m)
  then Ok (ymd2ord y m d)
  else Err ValueError.

(** [d + timedelta(days=1)]. *)
Definition add_one_day (d : date) : result date :=
  let o := d + 1 in
  if (0 <? o) && (o <=? MAXORDINAL) then Ok o else Err OverflowError.

(* ================================================================= *)
(** ** Python values

    What [response.json()] yields, plus the [date] objects that
    [get_data] stores into the rows.  A number keeps its JSON lexeme: the
    code never computes with one.  A dict lists its bindings in insertion
    order, with distinct keys. *)

#[warnings="-register-all"]
Inductive value : Type :=
| VNone
| VBool (b : bool)
| VNum (lexeme : string)
| VStr (s : string)
| VDate (d : date)
| VList (items : list value)
| VDict (bindings : list (string * value)).

Fixpoint assoc (k : string) (kvs : list (string * value)) : option value :=
  match kvs with
  | [] => None
  | (k', v) :: rest => if String.eqb k k' then Some v else assoc k rest
  end.

Fixpoint assoc_set (k : string) (v : value) (kvs : list (string * value))
  : list (string * value) :=
  match kvs with
  | [] => [(k, v)]
  | (k', v') :: rest =>
      if String.eqb k k' then (k, v) :: rest else (k', v') :: assoc_set k v rest
  end.

(** [obj[key]] for a string key. *)
Definition getitem (obj : value) (key : string) : result value :=
  match obj with
  | VDict kvs =>
      match assoc key kvs with
      | Some v => Ok v
      | None => Err KeyError
      end
  | _ => Err TypeError
  end.

(** [obj[key] = v] for a string key; the updated object is returned. *)
Definition setitem (obj : value) (key : string) (v : value) : result value :=
  match obj with
  | VDict kvs => Ok (VDict (assoc_set key v kvs))
  | _ => Err TypeError
  end.

Fixpoint chars (s : string) : list value :=
  match s with
  | EmptyString => []
  | String c rest => VStr (String c EmptyString) :: chars rest
  end.

(** The items a [for] loop (or [list.extend]) draws from a value. *)
Definition py_iter (v : value) : result (list value) :=
  match v with
  | VList items => Ok items
  | VDict kvs => Ok (map (fun kv => VStr (fst kv)) kvs)
  | VStr s => Ok (chars s)
  | _ => Err TypeError
  end.

(** [v == d] against a date; [v == s] and [v != s] against a string.  A
    value of another type is equal to neither. *)
Definition eq_date (v : value) (d : date) : bool :=
  match v with
  | VDate d' => d' =? d
  | _ => false
  end.

Definition eq_str (v : value) (s : string) : bool :=
  match v with
  | VStr s' => String.eqb s' s
  | _ => false
  end.

Definition ne_str (v : value) (s : string) : bool := negb (eq_str v s).

(* ================================================================= *)
(** ** The regular expression of [get_data]

    [re.sub(r"(\d+)/(\d+)/(\d+) .*", "\\1-\\2-\\3", s, 1)] is run by a
    small backtracking matcher over the constructs the pattern uses: single
    characters, greedy repetition of a character class, and group
    boundaries.  Strings are sequences of code points below 256, among
    which [\d] accepts exactly the ASCII digits; [.] accepts everything but
    the line feed. *)

Inductive atom : Type :=
| Lit (c : ascii)
| Digit
| AnyChar.

Inductive tok : Type :=
| GroupOpen
| GroupClose
| One (a : atom)
| Rep (lo : nat) (a : atom).

Definition is_digit (c : ascii) : bool :=
  let n := N_of_ascii c in ((48 <=? n) && (n <=? 57))%N.

Definition accepts (a : atom) (c : ascii) : bool :=
  match a with
  | Lit c' => Ascii.eqb c c'
  | Digit => is_digit c
  | AnyChar => negb (Ascii.eqb c "010"%char)
  end.

(** Greedy repetition: take one more character when the class accepts it
    and the rest of the pattern then succeeds; otherwise stop here, if at
    least [lo] characters were taken. *)
Fixpoint greedy {A} (a : atom) (lo : nat) (k : string -> option A) (s : string)
  : option A :=
  let stop := match lo with O => k s | S _ => None end in
  match s with
  | String c rest =>
      if accepts a c then
        match greedy a (Nat.pred lo) k rest with
        | Some x => Some x
        | None => stop
        end
      else stop
  | EmptyString => stop
  end.

(** [match_at p s marks]: match the whole of [p] at the start of [s].  The
    result is the text left after the match and the texts that were left
    at each group boundary, latest first. *)
Fixpoint match_at (p : list tok) (s : string) (marks : list string)
  : option (string * list string) :=
  match p with
  | [] => Some (s, marks)
  | GroupOpen :: p' => match_at p' s (s :: marks)
  | GroupClose :: p' => match_at p' s (s :: marks)
  | One a :: p' =>
      match s with
      | String c rest => if accepts a c then match_at p' rest marks else None
      | EmptyString => None
      end
  | Rep lo a :: p' => greedy a lo (fun rest => match_at p' rest marks) s
  end.

(** The text between two boundaries, each given by what was left there. *)
Definition between (opened closed : string) : string :=
  substring 0 (String.length opened - String.length closed) opened.

Fixpoint groups_of (marks : list string) : list string :=
  match marks with
  | opened :: closed :: more => between opened closed :: groups_of more
  | _ => []
  end.

Inductive piece : Type :=
| Text (s : string)
| Ref (n : nat).

Fixpoint expand (t : list piece) (groups : list string) : string :=
  match t with
  | [] => EmptyString
  | Text s :: t' => s ++ expand t' groups
  | Ref n :: t' => nth (Nat.pred n) groups EmptyString ++ expand t' groups
  end.

(** [re.sub(p, t, s, 1)]: the leftmost match is replaced, the text before
    and after it is kept. *)
Fixpoint sub_first (p : list tok) (t : list piece) (s : string) : string :=
  match match_at p s [] with
  | Some (rest, marks) => expand t (groups_of (rev marks)) ++ rest
  | None =>
      match s with
      | EmptyString => EmptyString
      | String c rest => String c (sub_first p t rest)
      end
  end.

Definition DELIVERY_PATTERN : list tok :=
  [GroupOpen; Rep 1 Digit; GroupClose; One (Lit "/");
   GroupOpen; Rep 1 Digit; GroupClose; One (Lit "/");
   GroupOpen; Rep 1 Digit; GroupClose; One (Lit " ");
   Rep 0 AnyChar].

Definition DELIVERY_TEMPLATE : list piece :=
  [Ref 1; Text "-"; Ref 2; Text "-"; Ref 3].

Definition re_sub_deliverydate (v : value) : result string :=
  match v with
  | VStr s => Ok (sub_first DELIVERY_PATTERN DELIVERY_TEMPLATE s)
  | _ => Err TypeError
  end.

(* ================================================================= *)
(** ** [date.fromisoformat] *)

Definition digit_val (c : ascii) : Z := Z.of_N (N_of_ascii c) - 48.

Definition num2 (a b : ascii) : Z := 10 * digit_val a + digit_val b.

Definition num4 (a b c d : ascii) : Z :=
  1000 * digit_val a + 100 * digit_val b + 10 * digit_val c + digit_val d.

(** The number a string of digits writes. *)
Definition number (s : string) : Z :=
  (fix go (acc : Z) (s : string) : Z :=
     match s with
     | EmptyString => acc
     | String c rest => go (10 * acc + digit_val c) rest
     end) 0 s.

Fixpoint all_digits (s : string) : bool :=
  match s with
  | EmptyString => true
  | String c rest => is_digit c && all_digits rest
  end.

(** No line feed in the string. *)
Fixpoint single_line (s : string) : bool :=
  match s with
  | EmptyString => true
  | String c rest => negb (Ascii.eqb c "010"%char) && single_line rest
  end.

(** The extended format [YYYY-MM-DD]. *)
Definition parse_extended (s : string) : option (Z * Z * Z) :=
  match s with
  | String y1 (String y2 (String y3 (String y4 (String s1
      (String m1 (String m2 (String s2 (String d1 (String d2 EmptyString))))))))) =>
      if is_digit y1 && is_digit y2 && is_digit y3 && is_digit y4
         && Ascii.eqb s1 "-" && is_digit m1 && is_digit m2
         && Ascii.eqb s2 "-" && is_digit d1 && is_digit d2
      then Some (num4 y1 y2 y3 y4, num2 m1 m2, num2 d1 d2)
      else None
  | _ => None
  end.

(* ================================================================= *)
(** ** HTTP requests and responses

    The three requests the client sends.  The login POST carries its
    [params] field; the schedule POST is identified by the date its
    [calStartDate] sub-field is formatted from.  Of a response the code reads
    the redirect history and the body as decoded by
    [response.json(content_type="text/html")]. *)

Inductive request : Type :=
| GetLoginPage
| PostLogin (params : string)
| PostSchedule (calStartDate : date).

Record response : Type := mkResponse {
  history : list string;
  json : result value
}.

(** [CalendarEvent] of the host framework, with the fields the client
    fills in. *)
Record CalendarEvent : Type := mkCalendarEvent {
  ev_start : value;
  ev_end : value;
  summary : value;
  description : string;
  location : value;
  uid : value
}.

Record Yoshikei : Type := mkYoshikei {
  username : string;
  password : string
}.

Definition BASE_URL : string := "https://www2.yoshikei-dvlp.co.jp/webodr/apl/10/".

(** [a + b] for the [str] literal [a]. *)
Definition str_add (a : string) (b : value) : result string :=
  match b with
  | VStr s => Ok (a ++ s)
  | _ => Err TypeError
  end.

(** [data += more].  A list is extended by the items of [more], a str is
    concatenated with a str, and a dict has no [+=].  Numbers are not
    added: [get_data] returns no number (see [normalize_returns_container]),
    so neither operand is one. *)
Definition iadd (data more : value) : result value :=
  match data with
  | VList items => (extra <- py_iter more ;; Ok (VList (items ++ extra)))%res
  | VStr s => match more with VStr t => Ok (VStr (s ++ t)) | _ => Err TypeError end
  | _ => Err TypeError
  end.

Section Client.

(** The remote server and the cookie jar of the session, as one state
    machine that answers a request and moves on. *)
Variable server : Type.
Variable serve : request -> server -> result response * server.

(** [date.fromisoformat] on a string that is not of the extended format
    (the basic and week formats are accepted from Python 3.11 on). *)
Variable iso_other : string -> result date.

Definition fromisoformat (s : string) : result date :=
  match parse_extended s with
  | Some (y, m, d) => mkdate y m d
  | None => iso_other s
  end.

(** The state a call runs in: the server, and the requests sent so far. *)
Record world : Type := mkWorld {
  remote : server;
  sent : list request
}.

Definition M (A : Type) : Type := world -> result A * world.

Definition ret {A} (a : A) : M A := fun w => (Ok a, w).
Definition raise {A} (e : exn) : M A := fun w => (Err e, w).
Definition lift {A} (r : result A) : M A := fun w => (r, w).
Definition bind {A B} (c : M A) (k : A -> M B) : M B :=
  fun w =>
    match c w with
    | (Ok a, w') => k a w'
    | (Err e, w') => (Err e, w')
    end.

Declare Scope m_scope.
Delimit Scope m_scope with M.
Notation "x <- c ;; k" := (bind c (fun x => k))
  (at level 61, c at next level, right associativity) : m_scope.

(** [try: body / except InvalidAuth: handler]. *)
Definition except_InvalidAuth {A} (body handler : M A) : M A :=
  fun w =>
    match body w with
    | (Err InvalidAuth, w') => handler w'
    | other => other
    end.

Definition http (req : request) : M response :=
  fun w =>
    let (r, s) := serve req (remote w) in
    (r, {| remote := s; sent := sent w ++ [req] |}).

Definition login_params (self : Yoshikei) : string :=
  "txtWeb_Login_Id=" ++ username self ++ "&pwdPassword=" ++ password self
    ++ "&nexturl=&device=pc".

Definition authenticate (self : Yoshikei) : M bool :=
  (_ <- http GetLoginPage ;;
   response <- http (PostLogin (login_params self)) ;;
   data <- lift (json response) ;;
   code <- lift (getitem data "errorcode") ;;
   if ne_str code "" then raise InvalidAuth
   else
     code' <- lift (getitem data "errorcode") ;;
     ret (eq_str code' ""))%M.

Definition __get_data (self : Yoshikei) (start : date) : M value :=
  (response <- http (PostSchedule start) ;;
   if negb (List.length (history response) =? 0)%nat then raise InvalidAuth
   else
     data <- lift (json response) ;;
     lift (getitem data "resultlist"))%M.

(** [date.fromisoformat(re.sub(..., raw, 1))]: the date that a raw
    [deliverydate] is replaced by. *)
Definition to_date (raw : value) : result date :=
  (date_str <- re_sub_deliverydate raw ;; fromisoformat date_str)%res.

(** One turn of the loop of [get_data] on a row of a list: the row with
    its [deliverydate] replaced. *)
Definition normalize_day (day : value) : result value :=
  (raw <- getitem day "deliverydate" ;;
   d <- to_date raw ;;
   setitem day "deliverydate" (VDate d))%res.

Fixpoint normalize_rows (rows : list value) : result (list value) :=
  match rows with
  | [] => Ok []
  | day :: rest =>
      (day' <- normalize_day day ;;
       rest' <- normalize_rows rest ;;
       Ok (day' :: rest'))%res
  end.

(** The loop of [get_data] over [enumerate(data)].  When [data] is not a
    list its items, if any, are strs, and the first subscript of the
    loop body raises. *)
Definition normalize (data : value) : result value :=
  match data with
  | VList rows => (rows' <- normalize_rows rows ;; Ok (VList rows'))%res
  | _ =>
      (items <- py_iter data ;;
       match items with
       | [] => Ok data
       | day :: _ => _ <- normalize_day day ;; Err TypeError
       end)%res
  end.

Definition get_data (self : Yoshikei) (start : date) : M value :=
  (data <- except_InvalidAuth
             (__get_data self start)
             (_ <- authenticate self ;; __get_data self start) ;;
   lift (normalize data))%M.

(** [next((item for item in data if item["deliverydate"] == start), None)]. *)
Fixpoint first_on (items : list value) (start : date) : result value :=
  match items with
  | [] => Ok VNone
  | item :: rest =>
      (v <- getitem item "deliverydate" ;;
       if eq_date v start then Ok item else first_on rest start)%res
  end.

Definition next_on (data : value) (start : date) : result value :=
  (items <- py_iter data ;; first_on items start)%res.

Definition new_event (day item : value) : result CalendarEvent :=
  (s <- getitem day "deliverydate" ;;
   e <- getitem day "deliverydate" ;;
   name <- getitem item "itemname" ;;
   link <- getitem item "link" ;;
   desc <- str_add BASE_URL link ;;
   menu <- getitem item "menuname" ;;
   link' <- getitem item "link" ;;
   Ok {| ev_start := s; ev_end := e; summary := name; description := desc;
         location := menu; uid := link' |})%res.

Fixpoint append_events (day : value) (items : list value)
         (events : list CalendarEvent) : result (list CalendarEvent) :=
  match items with
  | [] => Ok events
  | item :: rest =>
      (ev <- new_event day item ;;
       append_events day rest (events ++ [ev]))%res
  end.

(** The search for the day of [start], with the supplementary fetch. *)
Definition locate_day (self : Yoshikei) (data : value) (start : date)
  : M (value * value) :=
  (day <- lift (next_on data start) ;;
   match day with
   | VNone =>
       more <- get_data self start ;;
       data' <- lift (iadd data more) ;;
       day' <- lift (next_on data' start) ;;
       ret (data', day')
   | _ => ret (data, day)
   end)%M.

(** The body of the [while] loop: the data, the events and the date it
    leaves behind. *)
Definition loop_body (self : Yoshikei) (start : date) (data : value)
           (events : list CalendarEvent)
  : M (value * list CalendarEvent * date) :=
  (found <- locate_day self data start ;;
   let (data', day) := found : value * value in
   orderitems <- lift (getitem day "orderitems") ;;
   items <- lift (py_iter orderitems) ;;
   events' <- lift (append_events day items events) ;;
   start' <- lift (add_one_day start) ;;
   ret (data', events', start'))%M.

(** [while start <= end].  The loop runs on fuel; [None] means that the
    fuel ran out before the loop was left. *)
Fixpoint get_events_loop (fuel : nat) (self : Yoshikei) (start end_ : date)
         (data : value) (events : list CalendarEvent) (w : world)
  : option (result (list CalendarEvent) * world) :=
  match fuel with
  | O => None
  | S fuel' =>
      if start <=? end_ then
        match loop_body self start data events w with
        | (Ok (data', events', start'), w') =>
            get_events_loop fuel' self start' end_ data' events' w'
        | (Err e, w') => Some (Err e, w')
        end
      else Some (Ok events, w)
  end.

Definition days_between (start end_ : date) : nat :=
  Z.to_nat (end_ - start + 1).

Definition get_events (self : Yoshikei) (start end_ : date) (w : world)
  : option (result (list CalendarEvent) * world) :=
  match get_data self start w with
  | (Ok data, w') =>
      get_events_loop (S (days_between start end_)) self start end_ data [] w'
  | (Err e, w') => Some (Err e, w')
  end.

End Client.

Arguments mkWorld {server} remote sent.
Arguments remote {server} w.
Arguments sent {server} w.
Arguments http {server} serve req w.
Arguments authenticate {server} serve self w.
Arguments __get_data {server} serve self start w.
Arguments get_data {server} serve iso_other self start w.
Arguments locate_day {server} serve iso_other self data start w.
Arguments loop_body {server} serve iso_other self start data events w.
Arguments get_events_loop {server} serve iso_other fuel self start end_ data events w.
Arguments get_events {server} serve iso_other self start end_ w.

(* ================================================================= *)
(** ** The calendar entity of [calendar.py] *)

(** [s.replace(old, new)] for one-character [old] and [new]. *)
Fixpoint replace_char (old new : ascii) (s : string) : string :=
  match s with
  | EmptyString => EmptyString
  | String c rest =>
      String (if Ascii.eqb c old then new else c) (replace_char old new rest)
  end.

(** A [datetime]: its date, and the microseconds since midnight. *)
Record datetime : Type := mkDatetime {
  dt_date : date;
  dt_time : Z
}.

Module YoshikeiCalender.

(** The attributes that [__init__] sets, but for the handle [hass] of the
    host.  [_event] starts as [None] and later holds what [get_events]
    returned. *)
Record t : Type := mk {
  name : string;
  _client : Yoshikei;
  _event : option (list CalendarEvent);
  entity_id : string
}.

(** [str_lower] is [str.lower], the case mapping of Unicode, which may
    give a text longer than its argument; it is left open here. *)
Definition __init__ (str_lower : string -> string)
           (name : string) (client : Yoshikei) : t :=
  {| name := name;
     _client := client;
     _event := None;
     entity_id := "calendar." ++ replace_char " " "_" (str_lower name) |}.

(** The property [event]. *)
Definition event (self : t) : option (list CalendarEvent) := _event self.

(** [async_get_events]: the outcome, and the entity it leaves. *)
Definition async_get_events {server : Type}
           (serve : request -> server -> result response * server)
           (iso_other : string -> result date)
           (self : t) (start_date end_date : datetime) (w : world server)
  : option (result (list CalendarEvent) * t * world server) :=
  match get_events serve iso_other (_client self)
                   (dt_date start_date) (dt_date end_date) w with
  | Some (Ok events, w') =>
      Some (Ok events,
            {| name := name self; _client := _client self;
               _event := Some events; entity_id := entity_id self |},
            w')
  | Some (Err e, w') => Some (Err e, self, w')
  | None => None
  end.

End YoshikeiCalender.

(* ================================================================= *)
(** ** A portal to run the client against

    A server with one account: it answers the login POST with an empty
    [errorcode] for the right [params] and opens the session, and it
    answers a schedule POST from its table when the session is open, by a
    redirect to the login page when it is not. *)

Module Portal.

Record state : Type := mkState { logged_in : bool }.

Definition serve (account : string) (schedule : date -> result value)
           (req : request) (p : state) : result response * state :=
  match req with
  | GetLoginPage => (Ok (mkResponse [] (Err ClientError)), p)
  | PostLogin params =>
      if String.eqb params account
      then (Ok (mkResponse [] (Ok (VDict [("errorcode", VStr "")]))),
            mkState true)
      else (Ok (mkResponse [] (Ok (VDict [("errorcode", VStr "E0001")]))),
            mkState false)
  | PostSchedule d =>
      if logged_in p then (Ok (mkResponse [] (schedule d)), p)
      else (Ok (mkResponse ["100201_D.aspx"] (Err ClientError)), p)
  end.

Definition me : Yoshikei := mkYoshikei "user" "secret".

Definition account : string :=
  "txtWeb_Login_Id=user&pwdPassword=secret&nexturl=&device=pc".

Definition item (name menu link : string) : value :=
  VDict [("itemname", VStr name); ("menuname", VStr menu); ("link", VStr link)].

Definition row (deliverydate : string) (orderitems : list value) : value :=
  VDict [("deliverydate", VStr deliverydate); ("orderitems", VList orderitems)].

Definition body (rows : list value) : result value :=
  Ok (VDict [("resultlist", VList rows)]).

Definition cut_meal : value := item "Cut Meal" "Course A" "100401_D.aspx?id=1".
Definition lovyu : value := item "Lovyu" "Course B" "100401_D.aspx?id=2".

(** Two days of May 2024: nothing on the 2nd, two items on the 3rd. *)
Definition may2024 (d : date) : result value :=
  body [row "2024/05/02 00:00:00" [];
        row "2024/05/03 00:00:00" [cut_meal; lovyu]].

(** A delivery on the last day of the calendar. *)
Definition last_day (d : date) : result value :=
  body [row "9999/12/31 00:00:00" [cut_meal; lovyu]].

(** The last day of the calendar with nothing to deliver. *)
Definition last_day_empty (d : date) : result value :=
  body [row "9999/12/31 00:00:00" []].

(** A delivery whose date is followed by a text of two lines. *)
Definition two_lines (d : date) : result value :=
  body [row ("2024/05/03 00:00" ++ String "010" "JST") [cut_meal]].

(** A row as [get_data] leaves it, and the event of an item. *)
Definition dated_row (d : date) (orderitems : list value) : value :=
  VDict [("deliverydate", VDate d); ("orderitems", VList orderitems)].

Definition event (d : date) (name menu link : string) : CalendarEvent :=
  {| ev_start := VDate d; ev_end := VDate d; summary := VStr name;
     description := BASE_URL ++ link; location := VStr menu;
     uid := VStr link |}.

(** A schedule with no day at all. *)
Definition nothing (d : date) : result value := body [].

Definition no_iso (s : string) : result date := Err ValueError.

Definition fresh : world state := mkWorld (mkState false) [].
Definition open_session : world state := mkWorld (mkState true) [].

End Portal.

(* ================================================================= *)
(** ** Vocabulary of the statements *)

(** The world after the two requests of a login. *)
Definition after_login {server : Type} (self : Yoshikei) (w : world server)
           (s : server) : world server :=
  mkWorld s (sent w ++ [GetLoginPage] ++ [PostLogin (login_params self)]).

(** A row of normalized data: its [deliverydate] is a date. *)
Definition dated (row : value) : Prop :=
  exists d, getitem row "deliverydate" = Ok (VDate d).

(** An order item with its three fields. *)
Definition order_item (item : value) (name menu link : string) : Prop :=
  getitem item "itemname" = Ok (VStr name) /\
  getitem item "menuname" = Ok (VStr menu) /\
  getitem item "link" = Ok (VStr link).

(** An event of one day [d] within [start..end_]. *)
Definition within (start end_ : date) (ev : CalendarEvent) : Prop :=
  exists d, ev_start ev = VDate d /\ ev_end ev = VDate d /\ start <= d <= end_.

(** No occurrence of the character in the string. *)
Fixpoint lacks (c : ascii) (s : string) : bool :=
  match s with
  | EmptyString => true
  | String c' rest => negb (Ascii.eqb c' c) && lacks c rest
  end.

(** Two rows that agree on every key but [deliverydate]. *)
Definition same_but_deliverydate (row row' : value) : Prop :=
  forall key, key <> "deliverydate" -> getitem row' key = getitem row key.

(** The event that [get_events] builds for an order item of the day [d]. *)
Definition event_for (d : date) (item : value) (ev : CalendarEvent) : Prop :=
  exists name menu link,
    order_item item name menu link /\
    ev = {| ev_start := VDate d; ev_end := VDate d; summary := VStr name;
            description := BASE_URL ++ link; location := VStr menu;
            uid := VStr link |}.

(** The [n] days from [start] on. *)
Fixpoint days_from (start : date) (n : nat) : list date :=
  match n with
  | O => []
  | S n' => start :: days_from (start + 1) n'
  end.

(** A raw [deliverydate] written as four digits, a slash, two digits, a
    slash, two digits, a space and a trailing text without a line feed,
    and the date [dt] of its year, month and day. *)
Definition slashed_date (raw : value) (dt : date) : Prop :=
  exists y m d trail : string,
    String.length y = 4%nat /\ String.length m = 2%nat /\
    String.length d = 2%nat /\
    all_digits y = true /\ all_digits m = true /\ all_digits d = true /\
    single_line trail = true /\
    raw = VStr (y ++ "/" ++ m ++ "/" ++ d ++ " " ++ trail) /\
    mkdate (number y) (number m) (number d) = Ok dt.

(** A row whose raw [deliverydate] is written that way, for the date [dt]. *)
Definition slashed_row (row : value) (dt : date) : Prop :=
  exists raw, getitem row "deliverydate" = Ok raw /\ slashed_date raw dt.

(** An event of the day [d]. *)
Definition on_day (d : date) (ev : CalendarEvent) : Prop :=
  ev_start ev = VDate d.

(** An event whose description is the base URL followed by its uid. *)
Definition links_to_uid (ev : CalendarEvent) : Prop :=
  exists link, uid ev = VStr link /\ description ev = BASE_URL ++ link.

(* ================================================================= *)
(** ** Properties of the client *)

Example ordinal_of_2024_05_03 : ymd2ord 2024 5 3 = 739009.
Proof. reflexivity. Qed.

Example ordinal_of_9999_12_31 : ymd2ord MAXYEAR 12 31 = MAXORDINAL.
Proof. reflexivity. Qed.

Lemma ne_str_empty (v : value) : ne_str v "" = false <-> v = VStr "".
Proof.
  unfold ne_str.
  destruct v; simpl; try (split; [discriminate | discriminate]).
  destruct s; simpl; split; intro H; try reflexivity; try discriminate.
Qed.

Lemma eq_str_not_ne (v : value) (s : string) :
  ne_str v s = false -> eq_str v s = true.
Proof. unfold ne_str. apply negb_false_iff. Qed.

Ltac run :=
  unfold get_data, except_InvalidAuth, authenticate, __get_data, http,
    bind, lift, ret, raise in *; simpl in *.

Section Login.

Context {server : Type}.
Variable serve : request -> server -> result response * server.

Lemma authenticate_outcome self w r0 s1 r s2 data code :
  serve GetLoginPage (remote w) = (Ok r0, s1) ->
  serve (PostLogin (login_params self)) s1 = (Ok r, s2) ->
  json r = Ok data ->
  getitem data "errorcode" = Ok code ->
  authenticate serve self w =
    (if ne_str code "" then Err InvalidAuth else Ok true,
     after_login self w s2).
Proof.
  intros Hget Hpost Hjson Hcode. unfold after_login. run.
  rewrite Hget. simpl. rewrite Hpost, Hjson. simpl. rewrite Hcode.
  rewrite <- app_assoc. simpl.
  destruct (ne_str code "") eqn:Hne; [reflexivity |].
  rewrite (eq_str_not_ne _ _ Hne). reflexivity.
Qed.

Lemma authenticate_returns_true self w b w' :
  authenticate serve self w = (Ok b, w') -> b = true.
Proof.
  run.
  destruct (serve GetLoginPage (remote w)) as [[r0|e0] s1]; simpl;
    [| discriminate].
  destruct (serve (PostLogin (login_params self)) s1) as [[r|e] s2]; simpl;
    [| discriminate].
  destruct (json r) as [data|e]; simpl; [| discriminate].
  destruct (getitem data "errorcode") as [code|e] eqn:Hcode; simpl;
    [| discriminate].
  destruct (ne_str code "") eqn:Hne; [discriminate |].
  intros H. inversion H.
  apply eq_str_not_ne. exact Hne.
Qed.

(** C4: once the login POST is answered with a JSON body that has an
    [errorcode] field, [authenticate] returns [True] exactly when that
    field is the empty string, and raises [InvalidAuth] for every other
    value of it. *)
Theorem authenticate_succeeds_iff_errorcode_empty self w r0 s1 r s2 data code :
  serve GetLoginPage (remote w) = (Ok r0, s1) ->
  serve (PostLogin (login_params self)) s1 = (Ok r, s2) ->
  json r = Ok data ->
  getitem data "errorcode" = Ok code ->
  (fst (authenticate serve self w) = Ok true <-> code = VStr "") /\
  (code <> VStr "" -> fst (authenticate serve self w) = Err InvalidAuth).
Proof.
  intros Hget Hpost Hjson Hcode.
  rewrite (authenticate_outcome _ _ _ _ _ _ _ _ Hget Hpost Hjson Hcode).
  simpl. destruct (ne_str code "") eqn:Hne.
  - assert (code <> VStr "") as Hcode'.
    { intros Heq. apply ne_str_empty in Heq. congruence. }
    split; [split; [discriminate | contradiction] | reflexivity].
  - apply ne_str_empty in Hne.
    split; [split; [intros _; exact Hne | reflexivity] | contradiction].
Qed.

(** C10: [authenticate] never returns [False].  Whatever the server does,
    the outcome is not [False]; and for a login response with an
    [errorcode] field the outcome is [InvalidAuth] when the field is not
    the empty string and [True] when it is. *)
Theorem authenticate_never_returns_false self w :
  fst (authenticate serve self w) <> Ok false /\
  (forall r0 s1 r s2 data code,
      serve GetLoginPage (remote w) = (Ok r0, s1) ->
      serve (PostLogin (login_params self)) s1 = (Ok r, s2) ->
      json r = Ok data ->
      getitem data "errorcode" = Ok code ->
      (code <> VStr "" /\ fst (authenticate serve self w) = Err InvalidAuth)
      \/ (code = VStr "" /\ fst (authenticate serve self w) = Ok true)).
Proof.
  split.
  - destruct (authenticate serve self w) as [[b|e] w'] eqn:Hrun; simpl;
      [| discriminate].
    apply authenticate_returns_true in Hrun. subst b. discriminate.
  - intros r0 s1 r s2 data code Hget Hpost Hjson Hcode.
    rewrite (authenticate_outcome _ _ _ _ _ _ _ _ Hget Hpost Hjson Hcode).
    simpl. destruct (ne_str code "") eqn:Hne.
    + left. split; [| reflexivity].
      intros Heq. apply ne_str_empty in Heq. congruence.
    + right. split; [apply ne_str_empty; exact Hne | reflexivity].
Qed.

(** C5: a schedule fetch whose response has a non-empty redirect history
    raises [InvalidAuth], whatever the body is; with an empty history it
    decodes the body and returns its [resultlist] field. *)
Theorem fetch_redirected_or_resultlist self start w r s :
  serve (PostSchedule start) (remote w) = (Ok r, s) ->
  let w' := mkWorld s (sent w ++ [PostSchedule start]) in
  (history r <> [] -> __get_data serve self start w = (Err InvalidAuth, w')) /\
  (history r = [] ->
   __get_data serve self start w =
     ((data <- json r ;; getitem data "resultlist")%res, w')).
Proof.
  intros Hpost w'. subst w'. run. rewrite Hpost. simpl.
  split; intros Hhist.
  - destruct (history r); [contradiction | reflexivity].
  - rewrite Hhist. simpl. destruct (json r); reflexivity.
Qed.

End Login.

Lemma authenticate_succeeds_iff_errorcode_empty_witness :
  fst (authenticate (Portal.serve Portal.account Portal.may2024)
         Portal.me Portal.fresh) = Ok true.
Proof.
  apply (authenticate_succeeds_iff_errorcode_empty
           (Portal.serve Portal.account Portal.may2024)
           Portal.me Portal.fresh
           (mkResponse [] (Err ClientError)) (Portal.mkState false)
           (mkResponse [] (Ok (VDict [("errorcode", VStr "")])))
           (Portal.mkState true)
           (VDict [("errorcode", VStr "")]) (VStr "")).
  - reflexivity.
  - reflexivity.
  - reflexivity.
  - reflexivity.
  - reflexivity.
Defined.

Lemma authenticate_never_returns_false_witness :
  fst (authenticate (Portal.serve Portal.account Portal.may2024)
         (mkYoshikei "user" "guess") Portal.fresh) <> Ok false.
Proof.
  exact (proj1 (authenticate_never_returns_false
                  (Portal.serve Portal.account Portal.may2024)
                  (mkYoshikei "user" "guess") Portal.fresh)).
Defined.

Lemma fetch_redirected_or_resultlist_witness :
  __get_data (Portal.serve Portal.account Portal.may2024) Portal.me 739009
    Portal.fresh
  = (Err InvalidAuth, mkWorld (Portal.mkState false) [PostSchedule 739009]).
Proof.
  apply (fetch_redirected_or_resultlist
           (Portal.serve Portal.account Portal.may2024) Portal.me 739009
           Portal.fresh (mkResponse ["100201_D.aspx"] (Err ClientError))
           (Portal.mkState false)).
  - reflexivity.
  - discriminate.
Defined.

(* ----------------------------------------------------------------- *)
(** *** The normalization of [deliverydate] *)

Section Normalization.

Variable iso_other : string -> result date.

Lemma length_app (a b : string) :
  String.length (a ++ b) = (String.length a + String.length b)%nat.
Proof. induction a; simpl; [reflexivity | now rewrite IHa]. Qed.

Lemma substring_prefix (a b : string) :
  substring 0 (String.length a) (a ++ b) = a.
Proof.
  induction a; simpl.
  - destruct b; reflexivity.
  - now rewrite IHa.
Qed.

Lemma append_nil_r (a : string) : a ++ "" = a.
Proof. induction a; simpl; [reflexivity | now rewrite IHa]. Qed.

Lemma between_app (a rest : string) : between (a ++ rest) rest = a.
Proof.
  unfold between. rewrite length_app.
  replace (String.length a + String.length rest - String.length rest)%nat
    with (String.length a) by lia.
  apply substring_prefix.
Qed.

(** A run of digits followed by something that is no digit is taken
    whole by [\d+]. *)
Lemma greedy_digits {A} (k : string -> option A) (ds : string) (c : ascii)
      (rest : string) (lo : nat) (x : A) :
  all_digits ds = true ->
  is_digit c = false ->
  (lo <= String.length ds)%nat ->
  k (String c rest) = Some x ->
  greedy Digit lo k (ds ++ String c rest) = Some x.
Proof.
  revert lo. induction ds as [|d ds IH]; intros lo Hds Hc Hlo Hk.
  - simpl in *. rewrite Hc. destruct lo; [exact Hk | lia].
  - simpl in Hds. apply andb_prop in Hds as [Hd Hds].
    cbn [append greedy accepts]. rewrite Hd.
    rewrite (IH (Nat.pred lo)); auto. simpl in Hlo. lia.
Qed.

(** [.*] takes a text without line feed to its end. *)
Lemma greedy_any {A} (k : string -> option A) (s : string) (x : A) :
  single_line s = true ->
  k EmptyString = Some x ->
  greedy AnyChar 0 k s = Some x.
Proof.
  induction s as [|c s IH]; intros Hs Hk.
  - exact Hk.
  - simpl in Hs. apply andb_prop in Hs as [Hc Hs].
    cbn [greedy accepts Nat.pred]. rewrite Hc. rewrite IH; auto.
Qed.

Lemma sub_first_match p t s rest marks :
  match_at p s [] = Some (rest, marks) ->
  sub_first p t s = expand t (groups_of (rev marks)) ++ rest.
Proof. intros H. destruct s; simpl; rewrite H; reflexivity. Qed.

Lemma delivery_pattern_matches (y m d trail : string) :
  all_digits y = true -> all_digits m = true -> all_digits d = true ->
  y <> "" -> m <> "" -> d <> "" ->
  single_line trail = true ->
  sub_first DELIVERY_PATTERN DELIVERY_TEMPLATE
            (y ++ "/" ++ m ++ "/" ++ d ++ " " ++ trail)
  = y ++ "-" ++ m ++ "-" ++ d.
Proof.
  intros Hy Hm Hd Ny Nm Nd Ht.
  assert (forall s, s <> "" -> (1 <= String.length s)%nat) as Hlen.
  { intros [|c s] H; [contradiction | simpl; lia]. }
  set (s3 := " " ++ trail).
  set (s2 := "/" ++ d ++ s3).
  set (s1 := "/" ++ m ++ s2).
  assert (match_at DELIVERY_PATTERN (y ++ s1) [] =
          Some ("", [s3; d ++ s3; s2; m ++ s2; s1; y ++ s1])) as Hmatch.
  { unfold DELIVERY_PATTERN. cbn [match_at].
    apply greedy_digits; auto. cbn [match_at accepts Ascii.eqb].
    simpl (Ascii.eqb _ _). cbv iota.
    fold s2.
    apply greedy_digits; auto.
    cbn [match_at accepts]. simpl (Ascii.eqb _ _). cbv iota. fold s3.
    apply greedy_digits; auto.
    cbn [match_at accepts]. simpl (Ascii.eqb _ _). cbv iota.
    apply greedy_any; auto. }
  rewrite (sub_first_match _ _ _ _ _ Hmatch).
  cbn [rev app groups_of DELIVERY_TEMPLATE expand nth Nat.pred].
  rewrite !between_app, !append_nil_r. reflexivity.
Qed.

Ltac open_string s H :=
  destruct s; simpl in H; try discriminate H; try lia.

Lemma fromisoformat_extended (y m d : string) :
  String.length y = 4%nat -> String.length m = 2%nat ->
  String.length d = 2%nat ->
  all_digits y = true -> all_digits m = true -> all_digits d = true ->
  fromisoformat iso_other (y ++ "-" ++ m ++ "-" ++ d)
  = mkdate (number y) (number m) (number d).
Proof.
  intros Ly Lm Ld Hy Hm Hd.
  do 5 (open_string y Ly). do 3 (open_string m Lm). do 3 (open_string d Ld).
  simpl in Hy, Hm, Hd.
  repeat match goal with
         | H : _ && _ = true |- _ => apply andb_prop in H as [? ?]
         end.
  unfold fromisoformat. cbn [append parse_extended].
  repeat match goal with
         | H : is_digit _ = true |- _ => rewrite H; clear H
         end.
  cbn [andb Ascii.eqb]. simpl (Ascii.eqb _ _). cbv iota.
  unfold number, num4, num2. cbn -[Z.mul Z.add digit_val mkdate].
  f_equal; lia.
Qed.

Lemma to_date_of_delivery_string (y m d trail : string) :
  String.length y = 4%nat -> String.length m = 2%nat ->
  String.length d = 2%nat ->
  all_digits y = true -> all_digits m = true -> all_digits d = true ->
  single_line trail = true ->
  to_date iso_other (VStr (y ++ "/" ++ m ++ "/" ++ d ++ " " ++ trail))
  = mkdate (number y) (number m) (number d).
Proof.
  intros Ly Lm Ld Hy Hm Hd Ht.
  unfold to_date, re_sub_deliverydate. cbn [rbind].
  rewrite delivery_pattern_matches; auto;
    try (intros ->; simpl in *; discriminate).
  apply fromisoformat_extended; assumption.
Qed.

End Normalization.

(* ----------------------------------------------------------------- *)
(** *** Re-authentication in [get_data] *)

Section Refetch.

Context {server : Type}.
Variable serve : request -> server -> result response * server.
Variable iso_other : string -> result date.

Lemma fetch_sent self start w r w' :
  __get_data serve self start w = (r, w') ->
  sent w' = (sent w ++ [PostSchedule start])%list.
Proof.
  run. destruct (serve (PostSchedule start) (remote w)) as [[resp|e] s].
  - destruct (List.length (history resp) =? 0)%nat; simpl.
    + destruct (json resp); simpl; intros H; inversion H; reflexivity.
    + intros H; inversion H; reflexivity.
  - intros H; inversion H; reflexivity.
Qed.

Lemma authenticate_sent self w r w' :
  authenticate serve self w = (r, w') ->
  (sent w' = (sent w ++ [GetLoginPage])%list /\ exists e, r = Err e)
  \/ sent w' = (sent w ++ [GetLoginPage; PostLogin (login_params self)])%list.
Proof.
  run.
  destruct (serve GetLoginPage (remote w)) as [[r0|e0] s1]; simpl.
  2: { intros H; inversion H. left. split; [reflexivity | eauto]. }
  intros H. right.
  destruct (serve (PostLogin (login_params self)) s1) as [[resp|e] s2];
    simpl in H.
  2: { inversion H. now rewrite <- app_assoc. }
  destruct (json resp) as [data|e]; simpl in H.
  2: { inversion H. now rewrite <- app_assoc. }
  destruct (getitem data "errorcode") as [code|e]; simpl in H.
  2: { inversion H. now rewrite <- app_assoc. }
  destruct (ne_str code ""); inversion H; now rewrite <- app_assoc.
Qed.

Lemma get_data_first_try self start w r w1 :
  __get_data serve self start w = (r, w1) ->
  r <> Err InvalidAuth ->
  get_data serve iso_other self start w
  = ((data <- r ;; normalize iso_other data)%res, w1).
Proof.
  intros Hfetch Hr. unfold get_data, bind, except_InvalidAuth, lift.
  rewrite Hfetch. destruct r as [data|e]; [reflexivity |].
  destruct e; try reflexivity. contradiction.
Qed.

Lemma get_data_second_try self start w w1 :
  __get_data serve self start w = (Err InvalidAuth, w1) ->
  get_data serve iso_other self start w
  = match authenticate serve self w1 with
    | (Ok _, w2) =>
        match __get_data serve self start w2 with
        | (r, w3) => ((data <- r ;; normalize iso_other data)%res, w3)
        end
    | (Err e, w2) => (Err e, w2)
    end.
Proof.
  intros Hfetch. unfold get_data, bind, except_InvalidAuth, lift.
  rewrite Hfetch.
  destruct (authenticate serve self w1) as [[b|e] w2]; [| reflexivity].
  destruct (__get_data serve self start w2) as [[data|e] w3]; reflexivity.
Qed.

(** C2: when the first fetch of [get_data] raises [InvalidAuth],
    [authenticate] runs once, from the world the failed fetch left.  If it
    raises, its error is the outcome and no further request is sent.  If it
    returns, the fetch is sent one second time and its result is the
    outcome: an error, [InvalidAuth] included, is passed on without a
    third fetch, and fetched data is normalized as if the first fetch had
    returned it.  The requests sent are the first fetch, the login page,
    at most one login and at most one more fetch. *)
Theorem get_data_reauthenticates_once self start w w1 :
  __get_data serve self start w = (Err InvalidAuth, w1) ->
  exists ra w2,
    authenticate serve self w1 = (ra, w2) /\
    match ra with
    | Err e =>
        get_data serve iso_other self start w = (Err e, w2) /\
        (sent w2 = (sent w ++ [PostSchedule start; GetLoginPage])%list \/
         sent w2 = (sent w ++ [PostSchedule start; GetLoginPage;
                              PostLogin (login_params self)])%list)
    | Ok _ =>
        exists rf w3,
          __get_data serve self start w2 = (rf, w3) /\
          get_data serve iso_other self start w
          = ((data <- rf ;; normalize iso_other data)%res, w3) /\
          sent w3 = (sent w ++ [PostSchedule start; GetLoginPage;
                               PostLogin (login_params self);
                               PostSchedule start])%list
    end.
Proof.
  intros Hfetch.
  pose proof (get_data_second_try _ _ _ _ Hfetch) as Hrun.
  pose proof (fetch_sent _ _ _ _ _ Hfetch) as Hsent1.
  destruct (authenticate serve self w1) as [ra w2] eqn:Hauth.
  exists ra, w2. split; [reflexivity |].
  pose proof (authenticate_sent _ _ _ _ Hauth) as Hsent2.
  rewrite Hsent1, <- !app_assoc in Hsent2. simpl in Hsent2.
  destruct ra as [b|e].
  - destruct (__get_data serve self start w2) as [rf w3] eqn:Hretry.
    exists rf, w3. split; [reflexivity |]. split; [exact Hrun |].
    pose proof (fetch_sent _ _ _ _ _ Hretry) as Hsent3.
    destruct Hsent2 as [[_ [e He]] | Hsent2]; [discriminate |].
    rewrite Hsent3, Hsent2, <- app_assoc. reflexivity.
  - split; [exact Hrun |].
    destruct Hsent2 as [[Hsent2 _] | Hsent2]; [left | right]; exact Hsent2.
Qed.

End Refetch.

Lemma get_data_reauthenticates_once_witness :
  exists ra w2,
    authenticate (Portal.serve Portal.account Portal.may2024) Portal.me
      (mkWorld (Portal.mkState false) [PostSchedule 739009]) = (ra, w2) /\
    match ra with
    | Err e =>
        get_data (Portal.serve Portal.account Portal.may2024) Portal.no_iso
          Portal.me 739009 Portal.fresh = (Err e, w2) /\
        (sent w2 = (sent Portal.fresh ++ [PostSchedule 739009; GetLoginPage])%list \/
         sent w2 = (sent Portal.fresh ++ [PostSchedule 739009; GetLoginPage;
                                         PostLogin (login_params Portal.me)])%list)
    | Ok _ =>
        exists rf w3,
          __get_data (Portal.serve Portal.account Portal.may2024) Portal.me
            739009 w2 = (rf, w3) /\
          get_data (Portal.serve Portal.account Portal.may2024) Portal.no_iso
            Portal.me 739009 Portal.fresh
          = ((data <- rf ;; normalize Portal.no_iso data)%res, w3) /\
          sent w3 = (sent Portal.fresh ++ [PostSchedule 739009; GetLoginPage;
                                          PostLogin (login_params Portal.me);
                                          PostSchedule 739009])%list
    end.
Proof.
  apply (get_data_reauthenticates_once
           (Portal.serve Portal.account Portal.may2024) Portal.no_iso
           Portal.me 739009 Portal.fresh).
  reflexivity.
Defined.

(* ----------------------------------------------------------------- *)
(** *** The loop of [get_events] *)

Lemma eq_date_true (v : value) (d : date) : eq_date v d = true -> v = VDate d.
Proof.
  destruct v; simpl; try discriminate.
  intros H. apply Z.eqb_eq in H. now subst.
Qed.

Lemma add_one_day_ok (d next : date) : add_one_day d = Ok next -> next = d + 1.
Proof.
  unfold add_one_day. destruct (_ && _); intros H; inversion H; reflexivity.
Qed.

Lemma first_on_found (items : list value) (start : date) (day : value) :
  first_on items start = Ok day ->
  day = VNone \/ getitem day "deliverydate" = Ok (VDate start).
Proof.
  induction items as [|item rest IH]; simpl.
  - intros H; inversion H. now left.
  - destruct (getitem item "deliverydate") as [v|e] eqn:Hv; simpl;
      [| discriminate].
    destruct (eq_date v start) eqn:Heq; [| exact IH].
    intros H; inversion H; subst. right.
    now rewrite Hv, (eq_date_true _ _ Heq).
Qed.

Lemma next_on_found (data : value) (start : date) (day : value) :
  next_on data start = Ok day ->
  day = VNone \/ getitem day "deliverydate" = Ok (VDate start).
Proof.
  unfold next_on. destruct (py_iter data); simpl; [| discriminate].
  apply first_on_found.
Qed.

Lemma new_event_dates (day item : value) (d : date) (ev : CalendarEvent) :
  getitem day "deliverydate" = Ok (VDate d) ->
  new_event day item = Ok ev ->
  ev_start ev = VDate d /\ ev_end ev = VDate d.
Proof.
  intros Hday. unfold new_event. rewrite Hday. cbn [rbind].
  destruct (getitem item "itemname"); cbn [rbind]; [| discriminate].
  destruct (getitem item "link"); cbn [rbind]; [| discriminate].
  destruct (str_add BASE_URL _); cbn [rbind]; [| discriminate].
  destruct (getitem item "menuname"); cbn [rbind]; [| discriminate].
  intros H; inversion H. split; reflexivity.
Qed.

Lemma append_events_Forall (P : CalendarEvent -> Prop) (day : value)
      (items : list value) :
  (forall item ev, new_event day item = Ok ev -> P ev) ->
  forall events evs,
    Forall P events ->
    append_events day items events = Ok evs ->
    Forall P evs.
Proof.
  intros Hnew. induction items as [|item rest IH]; simpl; intros events evs Hev.
  - intros H; inversion H; subst. exact Hev.
  - destruct (new_event day item) as [ev|e] eqn:Hitem; simpl; [| discriminate].
    apply IH. apply Forall_app. split; [exact Hev |].
    constructor; [| constructor]. eapply Hnew; eassumption.
Qed.

Lemma assoc_set_same k v kvs : assoc k (assoc_set k v kvs) = Some v.
Proof.
  induction kvs as [|[k' v'] rest IH]; simpl.
  - now rewrite String.eqb_refl.
  - destruct (String.eqb k k') eqn:Hk; simpl.
    + now rewrite String.eqb_refl.
    + now rewrite Hk.
Qed.

Lemma first_on_skip (pre rest : list value) (d : date) :
  Forall dated pre ->
  Forall (fun row => getitem row "deliverydate" <> Ok (VDate d)) pre ->
  first_on (pre ++ rest) d = first_on rest d.
Proof.
  induction pre as [|row pre IH]; intros Hdated Hother; [reflexivity |].
  inversion Hdated as [|? ? [d' Hrow] Hdated']; subst.
  inversion Hother as [|? ? Hne Hother']; subst.
  simpl. rewrite Hrow. simpl.
  destruct (d' =? d) eqn:Heq.
  - apply Z.eqb_eq in Heq. subst. contradiction.
  - apply IH; assumption.
Qed.

Section Normalized.

Variable iso_other : string -> result date.

Lemma normalize_day_dated day day' :
  normalize_day iso_other day = Ok day' -> dated day'.
Proof.
  unfold normalize_day.
  destruct (getitem day "deliverydate"); cbn [rbind]; [| discriminate].
  destruct (to_date iso_other a) as [d|e]; cbn [rbind]; [| discriminate].
  destruct day; simpl; try discriminate.
  intros H; inversion H. exists d. simpl. now rewrite assoc_set_same.
Qed.

Lemma normalize_rows_dated rows rows' :
  normalize_rows iso_other rows = Ok rows' -> Forall dated rows'.
Proof.
  revert rows'. induction rows as [|day rest IH]; simpl; intros rows'.
  - intros H; inversion H. constructor.
  - destruct (normalize_day iso_other day) as [day'|e] eqn:Hday; simpl;
      [| discriminate].
    destruct (normalize_rows iso_other rest) as [rest'|e]; simpl;
      [| discriminate].
    intros H; inversion H. constructor.
    + eapply normalize_day_dated; eassumption.
    + now apply IH.
Qed.

(** [normalize] returns a list only for a list, and then with every row
    dated. *)
Lemma normalize_list_dated data rows :
  normalize iso_other data = Ok (VList rows) -> Forall dated rows.
Proof.
  destruct data; simpl; try discriminate.
  - destruct (chars s) as [|c cs]; simpl; [discriminate |].
    destruct (normalize_day iso_other c); simpl; discriminate.
  - destruct (normalize_rows iso_other items) as [rows'|e] eqn:Hrows; simpl;
      [| discriminate].
    intros H; inversion H; subst. eapply normalize_rows_dated; eassumption.
  - destruct bindings as [|[k v] rest]; simpl; discriminate.
Qed.

(** What [normalize], and so [get_data], returns is a list, or the empty
    str or dict it was given: never a number. *)
Lemma normalize_returns_container data data' :
  normalize iso_other data = Ok data' ->
  (exists rows, data' = VList rows) \/ data' = VStr "" \/ data' = VDict [].
Proof.
  destruct data; simpl; try discriminate.
  - destruct s as [|c s]; simpl; [| discriminate].
    intros H; inversion H. right. left. reflexivity.
  - destruct (normalize_rows iso_other items) as [rows'|e]; simpl;
      [| discriminate].
    intros H; inversion H. left. eexists. reflexivity.
  - destruct bindings as [|[k v] rest]; simpl; [| discriminate].
    intros H; inversion H. right. right. reflexivity.
Qed.

End Normalized.

Section Events.

Context {server : Type}.
Variable serve : request -> server -> result response * server.
Variable iso_other : string -> result date.

Lemma locate_day_found self data start w data' day w' :
  locate_day serve iso_other self data start w = (Ok (data', day), w') ->
  day = VNone \/ getitem day "deliverydate" = Ok (VDate start).
Proof.
  unfold locate_day, bind, lift, ret.
  destruct (next_on data start) as [found|e] eqn:Hfound; [| discriminate].
  assert (forall w0, (Ok (data, found), w0) = (Ok (data', day), w') ->
                     day = VNone \/
                     getitem day "deliverydate" = Ok (VDate start)) as Hhit.
  { intros w0 H; inversion H; subst. eapply next_on_found; eassumption. }
  destruct found; try apply Hhit.
  destruct (get_data serve iso_other self start w) as [[more|e] w1];
    [| discriminate].
  destruct (iadd data more) as [data1|e]; [| discriminate].
  destruct (next_on data1 start) as [day1|e] eqn:Hagain; [| discriminate].
  intros H; inversion H; subst. eapply next_on_found; eassumption.
Qed.

(** What a turn of the loop that ends well has done. *)
Lemma loop_body_ok self start data events w data' events' next w' :
  loop_body serve iso_other self start data events w
  = (Ok (data', events', next), w') ->
  exists day orderitems items,
    locate_day serve iso_other self data start w = (Ok (data', day), w') /\
    getitem day "orderitems" = Ok orderitems /\
    py_iter orderitems = Ok items /\
    append_events day items events = Ok events' /\
    add_one_day start = Ok next.
Proof.
  unfold loop_body, bind, lift, ret.
  destruct (locate_day serve iso_other self data start w)
    as [[[data1 day]|e] w1] eqn:Hday; [| discriminate].
  destruct (getitem day "orderitems") as [orderitems|e] eqn:Hoi;
    [| discriminate].
  destruct (py_iter orderitems) as [items|e] eqn:Hitems; [| discriminate].
  destruct (append_events day items events) as [events1|e] eqn:Happ;
    [| discriminate].
  destruct (add_one_day start) as [next1|e] eqn:Hnext; [| discriminate].
  intros H; inversion H; subst. exists day, orderitems, items.
  repeat split; assumption.
Qed.

(** The loop is left before the fuel of [get_events] runs out. *)
Lemma get_events_loop_terminates fuel self start end_ data events w :
  (days_between start end_ < fuel)%nat ->
  exists outcome,
    get_events_loop serve iso_other fuel self start end_ data events w
    = Some outcome.
Proof.
  revert start data events w.
  induction fuel as [|fuel IH]; intros start data events w Hfuel; [lia |].
  cbn [get_events_loop].
  destruct (start <=? end_) eqn:Hle; [| eauto].
  apply Z.leb_le in Hle.
  destruct (loop_body serve iso_other self start data events w)
    as [[[[data' events'] next]|e] w'] eqn:Hbody; [| eauto].
  apply loop_body_ok in Hbody as (day & oi & items & _ & _ & _ & _ & Hnext).
  apply add_one_day_ok in Hnext. subst next.
  apply IH. unfold days_between in *. lia.
Qed.

(** X20: the loop of [get_events] is always left: for every range, server
    and data the call ends, with a list or with an exception. *)
Theorem get_events_terminates self start end_ w :
  exists outcome, get_events serve iso_other self start end_ w = Some outcome.
Proof.
  unfold get_events.
  destruct (get_data serve iso_other self start w) as [[data|e] w'];
    [| eauto].
  apply get_events_loop_terminates. lia.
Qed.

Lemma get_events_loop_within fuel self start end_ :
  forall cur data events w evs w',
    start <= cur ->
    Forall (within start end_) events ->
    get_events_loop serve iso_other fuel self cur end_ data events w
    = Some (Ok evs, w') ->
    Forall (within start end_) evs.
Proof.
  induction fuel as [|fuel IH]; intros cur data events w evs w' Hcur Hev;
    [discriminate |].
  cbn [get_events_loop].
  destruct (cur <=? end_) eqn:Hle.
  2: { intros H; inversion H; subst. exact Hev. }
  apply Z.leb_le in Hle.
  destruct (loop_body serve iso_other self cur data events w)
    as [[[[data' events'] next]|e] w1] eqn:Hbody; [| discriminate].
  apply loop_body_ok in Hbody
    as (day & oi & items & Hday & Hoi & Hitems & Happ & Hnext).
  apply add_one_day_ok in Hnext. subst next.
  apply IH; [lia |].
  apply locate_day_found in Hday as [-> | Hday]; [discriminate |].
  eapply append_events_Forall; [| exact Hev | exact Happ].
  intros item ev Hnew.
  destruct (new_event_dates _ _ _ _ Hday Hnew) as [Hs He].
  exists cur. repeat split; auto; lia.
Qed.

(** C3: every event in the list that [get_events start end_] returns
    starts and ends on one date, and that date lies in [start..end_]. *)
Theorem get_events_within_range self start end_ w evs w' :
  get_events serve iso_other self start end_ w = Some (Ok evs, w') ->
  Forall (within start end_) evs.
Proof.
  unfold get_events.
  destruct (get_data serve iso_other self start w) as [[data|e] w1];
    [| discriminate].
  apply get_events_loop_within; [lia | constructor].
Qed.

Lemma get_data_rows_dated self start w rows w' :
  get_data serve iso_other self start w = (Ok (VList rows), w') ->
  Forall dated rows.
Proof.
  unfold get_data, bind, lift.
  destruct (except_InvalidAuth _ _ _ w) as [[data|e] w1]; [| discriminate].
  intros H; inversion H. eapply normalize_list_dated; eassumption.
Qed.

(** C6, amended: [get_events d d], for a day [d] before 9999-12-31, when
    the data fetched for [d] has exactly one row of that date and that row
    has two order items, returns exactly two events, in the order of the
    items: each starts and ends on [d], has the item's [link] as [uid],
    its [itemname] as [summary], its [menuname] as [location], and the
    base URL followed by the [link] as [description]. *)
Theorem single_day_two_items self d w w1 rows pre day post
        i1 name1 menu1 link1 i2 name2 menu2 link2 :
  1 <= d < MAXORDINAL ->
  get_data serve iso_other self d w = (Ok (VList rows), w1) ->
  rows = (pre ++ day :: post)%list ->
  getitem day "deliverydate" = Ok (VDate d) ->
  Forall (fun row => getitem row "deliverydate" <> Ok (VDate d))
         (pre ++ post)%list ->
  getitem day "orderitems" = Ok (VList [i1; i2]) ->
  order_item i1 name1 menu1 link1 ->
  order_item i2 name2 menu2 link2 ->
  get_events serve iso_other self d d w
  = Some (Ok [ {| ev_start := VDate d; ev_end := VDate d;
                  summary := VStr name1;
                  description := BASE_URL ++ link1;
                  location := VStr menu1; uid := VStr link1 |};
               {| ev_start := VDate d; ev_end := VDate d;
                  summary := VStr name2;
                  description := BASE_URL ++ link2;
                  location := VStr menu2; uid := VStr link2 |} ],
          w1).
Proof.
  intros Hd Hdata Hrows Hdate Hother Hitems (Hn1 & Hm1 & Hl1) (Hn2 & Hm2 & Hl2).
  pose proof (get_data_rows_dated _ _ _ _ _ Hdata) as Hdated.
  subst rows. apply Forall_app in Hdated as [Hpre _].
  apply Forall_app in Hother as [Hother _].
  assert (locate_day serve iso_other self (VList (pre ++ day :: post)) d w1
          = (Ok (VList (pre ++ day :: post), day), w1)) as Hday.
  { unfold locate_day, bind, lift, ret, next_on. cbn [py_iter rbind].
    rewrite (first_on_skip _ _ _ Hpre Hother). cbn [first_on].
    rewrite Hdate. cbn [rbind eq_date]. rewrite Z.eqb_refl.
    destruct day; try discriminate Hdate. reflexivity. }
  assert (add_one_day d = Ok (d + 1)) as Hnext.
  { unfold add_one_day.
    replace (0 <? d + 1) with true by (symmetry; apply Z.ltb_lt; lia).
    replace (d + 1 <=? MAXORDINAL) with true
      by (symmetry; apply Z.leb_le; lia).
    reflexivity. }
  unfold get_events. rewrite Hdata.
  replace (days_between d d) with 1%nat
    by (unfold days_between; replace (d - d + 1) with 1 by lia; reflexivity).
  cbn [get_events_loop]. rewrite Z.leb_refl.
  unfold loop_body, bind, lift, ret. rewrite Hday, Hitems.
  cbn [py_iter append_events]. unfold new_event.
  rewrite Hdate, Hn1, Hm1, Hl1, Hn2, Hm2, Hl2. cbn [rbind str_add app].
  rewrite Hnext.
  replace (d + 1 <=? d) with false by (symmetry; apply Z.leb_gt; lia).
  reflexivity.
Qed.

(** A turn of the loop on a day that is still not found after the
    supplementary fetch subscripts [None]. *)
Lemma missing_day_raises fuel self cur end_ data events w data' w' :
  cur <= end_ ->
  locate_day serve iso_other self data cur w = (Ok (data', VNone), w') ->
  get_events_loop serve iso_other (S fuel) self cur end_ data events w
  = Some (Err TypeError, w').
Proof.
  intros Hle Hday. cbn [get_events_loop]. apply Z.leb_le in Hle.
  rewrite Hle. unfold loop_body, bind, lift, ret. rewrite Hday.
  reflexivity.
Qed.

End Events.

(** C1: on a day that no row of the fetched data is for, also after the
    supplementary fetch, [get_events] does not skip the day: it raises
    [TypeError].  Here the portal has an open session and an empty
    schedule, and the range is the single day 2024-05-03. *)
Theorem get_events_missing_day_raises_TypeError :
  get_events (Portal.serve Portal.account Portal.nothing) Portal.no_iso
    Portal.me 739009 739009 Portal.open_session
  = Some (Err TypeError,
          mkWorld (Portal.mkState true) [PostSchedule 739009; PostSchedule 739009]).
Proof. reflexivity. Qed.

Lemma get_events_within_range_witness :
  Forall (within 739008 739009)
         [Portal.event 739009 "Cut Meal" "Course A" "100401_D.aspx?id=1";
          Portal.event 739009 "Lovyu" "Course B" "100401_D.aspx?id=2"].
Proof.
  eapply (get_events_within_range
            (Portal.serve Portal.account Portal.may2024) Portal.no_iso
            Portal.me 739008 739009 Portal.fresh).
  reflexivity.
Defined.

Lemma single_day_two_items_witness :
  get_events (Portal.serve Portal.account Portal.may2024) Portal.no_iso
    Portal.me 739009 739009 Portal.open_session
  = Some (Ok [Portal.event 739009 "Cut Meal" "Course A" "100401_D.aspx?id=1";
              Portal.event 739009 "Lovyu" "Course B" "100401_D.aspx?id=2"],
          mkWorld (Portal.mkState true) [PostSchedule 739009]).
Proof.
  apply (single_day_two_items
           (Portal.serve Portal.account Portal.may2024) Portal.no_iso
           Portal.me 739009 Portal.open_session
           (mkWorld (Portal.mkState true) [PostSchedule 739009])
           [Portal.dated_row 739008 [];
            Portal.dated_row 739009 [Portal.cut_meal; Portal.lovyu]]
           [Portal.dated_row 739008 []]
           (Portal.dated_row 739009 [Portal.cut_meal; Portal.lovyu])
           []
           Portal.cut_meal "Cut Meal" "Course A" "100401_D.aspx?id=1"
           Portal.lovyu "Lovyu" "Course B" "100401_D.aspx?id=2").
  - unfold MAXORDINAL. lia.
  - reflexivity.
  - reflexivity.
  - reflexivity.
  - repeat constructor; simpl; discriminate.
  - reflexivity.
  - repeat split.
  - repeat split.
Defined.

(** C6 as stated fails on the last day of the calendar: the data fetched
    for 9999-12-31 is one row of that date with two order items, and
    [get_events] raises [OverflowError] when the loop steps past the day. *)
Lemma single_day_at_date_max_raises :
  get_data (Portal.serve Portal.account Portal.last_day) Portal.no_iso
    Portal.me MAXORDINAL Portal.open_session
  = (Ok (VList [Portal.dated_row MAXORDINAL [Portal.cut_meal; Portal.lovyu]]),
     mkWorld (Portal.mkState true) [PostSchedule MAXORDINAL]) /\
  order_item Portal.cut_meal "Cut Meal" "Course A" "100401_D.aspx?id=1" /\
  order_item Portal.lovyu "Lovyu" "Course B" "100401_D.aspx?id=2" /\
  get_events (Portal.serve Portal.account Portal.last_day) Portal.no_iso
    Portal.me MAXORDINAL MAXORDINAL Portal.open_session
  = Some (Err OverflowError,
          mkWorld (Portal.mkState true) [PostSchedule MAXORDINAL]).
Proof. repeat split. Qed.

(* ----------------------------------------------------------------- *)
(** *** Two calls against the same data *)

Section Unchanged.

Context {server : Type}.
Variable serve : request -> server -> result response * server.
Variable iso_other : string -> result date.

(** The server's data does not change: whenever a schedule POST for a
    date is answered without a redirect, the body decodes to the same
    thing. *)
Variable schedule : date -> result value.
Hypothesis unchanged :
  forall start s r s',
    serve (PostSchedule start) s = (Ok r, s') ->
    history r = [] ->
    json r = schedule start.

Lemma fetch_ok self start w data w' :
  __get_data serve self start w = (Ok data, w') ->
  (body <- schedule start ;; getitem body "resultlist")%res = Ok data.
Proof.
  run.
  destruct (serve (PostSchedule start) (remote w)) as [[r|e] s] eqn:Hpost;
    [| discriminate].
  destruct (history r) as [|h hs] eqn:Hhist; simpl; [| discriminate].
  rewrite <- (unchanged _ _ _ _ Hpost Hhist).
  destruct (json r); simpl; [| discriminate].
  intros H; inversion H; reflexivity.
Qed.

Lemma get_data_ok self start w data w' :
  get_data serve iso_other self start w = (Ok data, w') ->
  (body <- schedule start ;;
   rows <- getitem body "resultlist" ;;
   normalize iso_other rows)%res = Ok data.
Proof.
  unfold get_data, bind, except_InvalidAuth, lift.
  destruct (__get_data serve self start w) as [[rows|e] w1] eqn:Hfirst.
  - apply fetch_ok in Hfirst.
    destruct (schedule start) as [body|e]; simpl in *; [| discriminate].
    rewrite Hfirst. simpl. intros H; inversion H; reflexivity.
  - destruct e; try discriminate.
    destruct (authenticate serve self w1) as [[b|e] w2]; [| discriminate].
    destruct (__get_data serve self start w2) as [[rows|e] w3] eqn:Hretry;
      [| discriminate].
    apply fetch_ok in Hretry.
    destruct (schedule start) as [body|e]; simpl in *; [| discriminate].
    rewrite Hretry. simpl. intros H; inversion H; reflexivity.
Qed.

Lemma locate_day_deterministic self data start w1 w2 found1 found2 w1' w2' :
  locate_day serve iso_other self data start w1 = (Ok found1, w1') ->
  locate_day serve iso_other self data start w2 = (Ok found2, w2') ->
  found1 = found2.
Proof.
  unfold locate_day, bind, lift, ret.
  destruct (next_on data start) as [day|e]; [| discriminate].
  destruct day; try (intros H1 H2; inversion H1; inversion H2; reflexivity).
  destruct (get_data serve iso_other self start w1) as [[more1|e] u1] eqn:H1;
    [| discriminate].
  destruct (get_data serve iso_other self start w2) as [[more2|e] u2] eqn:H2;
    [| discriminate].
  apply get_data_ok in H1, H2. rewrite H1 in H2. inversion H2; subst.
  destruct (iadd data more2) as [data'|e]; [| discriminate].
  destruct (next_on data' start); [| discriminate].
  intros E1 E2; inversion E1; inversion E2; reflexivity.
Qed.

Lemma loop_body_deterministic self start data events w1 w2 t1 t2 w1' w2' :
  loop_body serve iso_other self start data events w1 = (Ok t1, w1') ->
  loop_body serve iso_other self start data events w2 = (Ok t2, w2') ->
  t1 = t2.
Proof.
  unfold loop_body, bind, lift, ret.
  destruct (locate_day serve iso_other self data start w1)
    as [[found1|e] u1] eqn:H1; [| discriminate].
  destruct (locate_day serve iso_other self data start w2)
    as [[found2|e] u2] eqn:H2; [| discriminate].
  rewrite (locate_day_deterministic _ _ _ _ _ _ _ _ _ H1 H2).
  destruct found2 as [data' day].
  destruct (getitem day "orderitems") as [oi|e]; [| discriminate].
  destruct (py_iter oi) as [items|e]; [| discriminate].
  destruct (append_events day items events); [| discriminate].
  destruct (add_one_day start); [| discriminate].
  intros E1 E2; inversion E1; inversion E2; reflexivity.
Qed.

Lemma get_events_loop_deterministic fuel self end_ :
  forall start data events w1 w2 evs1 evs2 w1' w2',
    get_events_loop serve iso_other fuel self start end_ data events w1
    = Some (Ok evs1, w1') ->
    get_events_loop serve iso_other fuel self start end_ data events w2
    = Some (Ok evs2, w2') ->
    evs1 = evs2.
Proof.
  induction fuel as [|fuel IH];
    intros start data events w1 w2 evs1 evs2 w1' w2'; [discriminate |].
  cbn [get_events_loop].
  destruct (start <=? end_).
  2: { intros E1 E2; inversion E1; inversion E2; congruence. }
  destruct (loop_body serve iso_other self start data events w1)
    as [[[[data1 events1] next1]|e] u1] eqn:H1; [| discriminate].
  destruct (loop_body serve iso_other self start data events w2)
    as [[[[data2 events2] next2]|e] u2] eqn:H2; [| discriminate].
  pose proof (loop_body_deterministic _ _ _ _ _ _ _ _ _ _ H1 H2) as E.
  inversion E; subst. apply IH.
Qed.

(** C9: with server data that does not change, two calls of [get_events]
    for the same range that both return, whatever the state of the
    session each starts in, return the same list of events. *)
Theorem get_events_deterministic self start end_ w1 w2 evs1 evs2 w1' w2' :
  get_events serve iso_other self start end_ w1 = Some (Ok evs1, w1') ->
  get_events serve iso_other self start end_ w2 = Some (Ok evs2, w2') ->
  evs1 = evs2.
Proof.
  unfold get_events.
  destruct (get_data serve iso_other self start w1) as [[data1|e] u1] eqn:H1;
    [| discriminate].
  destruct (get_data serve iso_other self start w2) as [[data2|e] u2] eqn:H2;
    [| discriminate].
  apply get_data_ok in H1, H2. rewrite H1 in H2. inversion H2; subst.
  apply get_events_loop_deterministic.
Qed.

End Unchanged.

Lemma portal_unchanged (account : string) (schedule : date -> result value) :
  forall start s r s',
    Portal.serve account schedule (PostSchedule start) s = (Ok r, s') ->
    history r = [] ->
    json r = schedule start.
Proof.
  intros start s r s' Hpost Hhist. unfold Portal.serve in Hpost.
  destruct (Portal.logged_in s); inversion Hpost; subst; simpl in *;
    [reflexivity | discriminate].
Qed.

Lemma get_events_deterministic_witness :
  exists evs1 evs2 w1' w2',
    get_events (Portal.serve Portal.account Portal.may2024) Portal.no_iso
      Portal.me 739008 739009 Portal.fresh = Some (Ok evs1, w1') /\
    get_events (Portal.serve Portal.account Portal.may2024) Portal.no_iso
      Portal.me 739008 739009 Portal.open_session = Some (Ok evs2, w2') /\
    evs1 = evs2.
Proof.
  do 4 eexists. split; [reflexivity |]. split; [reflexivity |].
  apply (get_events_deterministic
           (Portal.serve Portal.account Portal.may2024) Portal.no_iso
           Portal.may2024 (portal_unchanged Portal.account Portal.may2024)
           Portal.me 739008 739009 Portal.fresh Portal.open_session
           _ _
           (mkWorld (Portal.mkState true)
                    [PostSchedule 739008; GetLoginPage;
                     PostLogin Portal.account; PostSchedule 739008])
           (mkWorld (Portal.mkState true) [PostSchedule 739008])).
  - reflexivity.
  - reflexivity.
Defined.

(* ================================================================= *)
(** ** Further properties of the code *)

(* ----------------------------------------------------------------- *)
(** *** The substitution and the rows of [get_data] *)

Section Substitution.

Variable iso_other : string -> result date.

(** X1: [re.sub] with the pattern of [get_data] rewrites a text that
    starts with three runs of digits of any width, separated by slashes and
    followed by a space, into the runs joined by hyphens, and drops the
    rest of the line. *)
Theorem re_sub_joins_digit_runs (y m d trail : string) :
  all_digits y = true -> all_digits m = true -> all_digits d = true ->
  y <> "" -> m <> "" -> d <> "" ->
  single_line trail = true ->
  re_sub_deliverydate (VStr (y ++ "/" ++ m ++ "/" ++ d ++ " " ++ trail))
  = Ok (y ++ "-" ++ m ++ "-" ++ d).
Proof.
  intros. unfold re_sub_deliverydate. f_equal.
  apply delivery_pattern_matches; assumption.
Qed.

Lemma append_assoc_str (a b c : string) : (a ++ b) ++ c = a ++ b ++ c.
Proof. induction a; simpl; [reflexivity | now rewrite IHa]. Qed.

(** [.*] stops at the first line feed. *)
Lemma greedy_any_line {A} (k : string -> option A) (line rest : string) (x : A) :
  single_line line = true ->
  k (String "010" rest) = Some x ->
  greedy AnyChar 0 k (line ++ String "010" rest) = Some x.
Proof.
  induction line as [|c line IH]; intros Hline Hk.
  - exact Hk.
  - simpl in Hline. apply andb_prop in Hline as [Hc Hline].
    cbn [append greedy accepts Nat.pred]. rewrite Hc. rewrite IH; auto.
Qed.

(** X2: only the first line of the trailing text is dropped: the line
    feed and what follows it stay behind the rewritten date. *)
Theorem re_sub_keeps_text_after_line_feed (y m d line rest : string) :
  all_digits y = true -> all_digits m = true -> all_digits d = true ->
  y <> "" -> m <> "" -> d <> "" ->
  single_line line = true ->
  re_sub_deliverydate
    (VStr (y ++ "/" ++ m ++ "/" ++ d ++ " " ++ line ++ String "010" rest))
  = Ok (y ++ "-" ++ m ++ "-" ++ d ++ String "010" rest).
Proof.
  intros Hy Hm Hd Ny Nm Nd Hline. unfold re_sub_deliverydate. f_equal.
  assert (forall s, s <> "" -> (1 <= String.length s)%nat) as Hlen.
  { intros [|c s] H; [contradiction | simpl; lia]. }
  set (tail := String "010" rest).
  set (s3 := " " ++ line ++ tail).
  set (s2 := "/" ++ d ++ s3).
  set (s1 := "/" ++ m ++ s2).
  assert (match_at DELIVERY_PATTERN (y ++ s1) [] =
          Some (tail, [s3; d ++ s3; s2; m ++ s2; s1; y ++ s1])) as Hmatch.
  { unfold DELIVERY_PATTERN. cbn [match_at].
    apply greedy_digits; auto. cbn [match_at accepts].
    simpl (Ascii.eqb _ _). cbv iota. fold s2.
    apply greedy_digits; auto.
    cbn [match_at accepts]. simpl (Ascii.eqb _ _). cbv iota. fold s3.
    apply greedy_digits; auto.
    cbn [match_at accepts]. simpl (Ascii.eqb _ _). cbv iota.
    apply greedy_any_line; auto. }
  rewrite (sub_first_match _ _ _ _ _ Hmatch).
  cbn [rev app groups_of DELIVERY_TEMPLATE expand nth Nat.pred].
  rewrite !between_app, !append_nil_r.
  rewrite !append_assoc_str. reflexivity.
Qed.

Lemma greedy_fails {A} (a : atom) (lo : nat) (k : string -> option A)
      (c : ascii) (s : string) :
  (forall rest, lacks c rest = true -> k rest = None) ->
  lacks c s = true ->
  greedy a lo k s = None.
Proof.
  intros Hk. revert lo. induction s as [|c' s IH]; intros lo Hs.
  - simpl. destruct lo; [apply Hk; reflexivity | reflexivity].
  - pose proof Hs as Hs'. simpl in Hs'. apply andb_prop in Hs' as [_ Hrest].
    cbn [greedy]. rewrite (IH _ Hrest).
    destruct (accepts a c'); destruct lo; auto.
Qed.

Lemma no_match_without_slash (s : string) :
  lacks "/" s = true -> match_at DELIVERY_PATTERN s [] = None.
Proof.
  intros Hs. unfold DELIVERY_PATTERN. cbn [match_at].
  apply (greedy_fails _ _ _ "/"); [| exact Hs].
  intros [|c rest] Hrest; cbn [match_at]; [reflexivity |].
  simpl in Hrest. apply andb_prop in Hrest as [Hc _].
  cbn [accepts]. apply negb_true_iff in Hc. rewrite Hc. reflexivity.
Qed.

Lemma sub_first_without_slash (s : string) :
  lacks "/" s = true ->
  sub_first DELIVERY_PATTERN DELIVERY_TEMPLATE s = s.
Proof.
  induction s as [|c s IH]; intros Hs.
  - reflexivity.
  - cbn [sub_first]. rewrite (no_match_without_slash _ Hs).
    simpl in Hs. apply andb_prop in Hs as [_ Hs]. now rewrite IH.
Qed.

Lemma digits_lack_slash (s : string) :
  all_digits s = true -> lacks "/" s = true.
Proof.
  induction s as [|c s IH]; simpl; [reflexivity |].
  intros H. apply andb_prop in H as [Hc Hs]. rewrite (IH Hs), andb_true_r.
  destruct (Ascii.eqb c "/") eqn:Heq; [| reflexivity].
  apply Ascii.eqb_eq in Heq. subst c. discriminate Hc.
Qed.

Lemma lacks_app (c : ascii) (a b : string) :
  lacks c a = true -> lacks c b = true -> lacks c (a ++ b) = true.
Proof.
  induction a as [|c' a IH]; simpl; [auto |].
  intros H Hb. apply andb_prop in H as [Hc Ha]. now rewrite Hc, IH.
Qed.

(** X3: a [deliverydate] with no slash in it goes through [re.sub]
    unchanged, so [date.fromisoformat] gets it as it came; one already
    written as four digits, a hyphen, two digits, a hyphen and two digits is
    therefore taken as that date. *)
Theorem deliverydate_without_slash_is_parsed_as_it_is :
  (forall s, lacks "/" s = true ->
             to_date iso_other (VStr s) = fromisoformat iso_other s) /\
  (forall y m d,
      String.length y = 4%nat -> String.length m = 2%nat ->
      String.length d = 2%nat ->
      all_digits y = true -> all_digits m = true -> all_digits d = true ->
      to_date iso_other (VStr (y ++ "-" ++ m ++ "-" ++ d))
      = mkdate (number y) (number m) (number d)).
Proof.
  assert (forall s, lacks "/" s = true ->
                    to_date iso_other (VStr s) = fromisoformat iso_other s)
    as Hplain.
  { intros s Hs. unfold to_date, re_sub_deliverydate. cbn [rbind].
    now rewrite sub_first_without_slash. }
  split; [exact Hplain |].
  intros y m d Ly Lm Ld Hy Hm Hd. rewrite Hplain.
  - apply fromisoformat_extended; assumption.
  - assert (forall x, lacks "/" x = true -> lacks "/" ("-" ++ x) = true)
      as Hhyphen by (intros x Hx; simpl; exact Hx).
    apply lacks_app; [now apply digits_lack_slash |]. apply Hhyphen.
    apply lacks_app; [now apply digits_lack_slash |]. apply Hhyphen.
    now apply digits_lack_slash.
Qed.

End Substitution.

Lemma assoc_set_other k k' v kvs :
  k' <> k -> assoc k' (assoc_set k v kvs) = assoc k' kvs.
Proof.
  intros Hk. induction kvs as [|[k0 v0] rest IH]; simpl.
  - destruct (String.eqb k' k) eqn:E; [| reflexivity].
    apply String.eqb_eq in E. contradiction.
  - destruct (String.eqb k k0) eqn:E; simpl.
    + apply String.eqb_eq in E. subst k0.
      destruct (String.eqb k' k) eqn:E'; [| reflexivity].
      apply String.eqb_eq in E'. contradiction.
    + now rewrite IH.
Qed.

Section Rows.

Variable iso_other : string -> result date.

Lemma normalize_day_keeps day day' :
  normalize_day iso_other day = Ok day' -> same_but_deliverydate day day'.
Proof.
  unfold normalize_day.
  destruct (getitem day "deliverydate") as [raw|e]; cbn [rbind];
    [| discriminate].
  destruct (to_date iso_other raw) as [d|e]; cbn [rbind]; [| discriminate].
  destruct day; simpl; try discriminate.
  intros H; inversion H. intros key Hkey. simpl.
  now rewrite assoc_set_other.
Qed.

Lemma normalize_rows_keep rows rows' :
  normalize_rows iso_other rows = Ok rows' ->
  Forall2 same_but_deliverydate rows rows'.
Proof.
  revert rows'. induction rows as [|day rest IH]; simpl; intros rows'.
  - intros E; inversion E. constructor.
  - destruct (normalize_day iso_other day) as [day'|e] eqn:Hday; simpl;
      [| discriminate].
    destruct (normalize_rows iso_other rest) as [rest'|e]; simpl;
      [| discriminate].
    intros E; inversion E. constructor.
    + eapply normalize_day_keeps; eassumption.
    + apply IH. reflexivity.
Qed.

(** X4: the loop of [get_data] over a list of rows keeps the number and
    the order of the rows and, in every row, every field but
    [deliverydate], which becomes a date. *)
Theorem normalize_changes_only_deliverydate rows data' :
  normalize iso_other (VList rows) = Ok data' ->
  exists rows',
    data' = VList rows' /\
    Forall2 same_but_deliverydate rows rows' /\
    Forall dated rows'.
Proof.
  cbn [normalize].
  destruct (normalize_rows iso_other rows) as [rows'|e] eqn:Hrows;
    cbn [rbind]; [| discriminate].
  intros H; inversion H; subst. exists rows'. split; [reflexivity |].
  split.
  - apply normalize_rows_keep. exact Hrows.
  - eapply normalize_rows_dated; eassumption.
Qed.

(** X5: one row that cannot be normalized makes the whole loop of
    [get_data] fail, with the error of the first such row; the rows before
    and after it do not matter. *)
Theorem normalize_fails_on_first_bad_row good bad rest e :
  Forall (fun row => exists row', normalize_day iso_other row = Ok row') good ->
  normalize_day iso_other bad = Err e ->
  normalize iso_other (VList (good ++ bad :: rest)) = Err e.
Proof.
  intros Hgood Hbad. cbn [normalize].
  assert (normalize_rows iso_other (good ++ bad :: rest) = Err e) as ->;
    [| reflexivity].
  induction Hgood as [|row good [row' Hrow] _ IH]; simpl.
  - now rewrite Hbad.
  - now rewrite Hrow, IH.
Qed.

End Rows.

Lemma normalize_changes_only_deliverydate_witness :
  exists rows',
    VList [Portal.dated_row 739008 [];
           Portal.dated_row 739009 [Portal.cut_meal; Portal.lovyu]]
    = VList rows' /\
    Forall2 same_but_deliverydate
            [Portal.row "2024/05/02 00:00:00" [];
             Portal.row "2024/05/03 00:00:00" [Portal.cut_meal; Portal.lovyu]]
            rows' /\
    Forall dated rows'.
Proof.
  apply (normalize_changes_only_deliverydate Portal.no_iso).
  reflexivity.
Defined.

Lemma normalize_fails_on_first_bad_row_witness :
  normalize Portal.no_iso
    (VList ([Portal.row "2024/05/02 00:00:00" []]
            ++ VDict [("orderitems", VList [])]
            :: [Portal.row "someday" []]))
  = Err KeyError.
Proof.
  apply (normalize_fails_on_first_bad_row Portal.no_iso).
  - repeat constructor. eexists. reflexivity.
  - reflexivity.
Defined.

(* ----------------------------------------------------------------- *)
(** *** The requests of [get_data] and [authenticate] *)

Section Requests.

Context {server : Type}.
Variable serve : request -> server -> result response * server.
Variable iso_other : string -> result date.

Lemma get_data_sent self start w :
  let w' := snd (get_data serve iso_other self start w) in
  let fetch := PostSchedule start in
  let login := PostLogin (login_params self) in
  sent w' = (sent w ++ [fetch])%list \/
  sent w' = (sent w ++ [fetch; GetLoginPage])%list \/
  sent w' = (sent w ++ [fetch; GetLoginPage; login])%list \/
  sent w' = (sent w ++ [fetch; GetLoginPage; login; fetch])%list.
Proof.
  cbv zeta.
  destruct (__get_data serve self start w) as [r1 w1] eqn:Hfirst.
  pose proof (fetch_sent _ _ _ _ _ _ Hfirst) as Hsent1.
  assert (r1 = Err InvalidAuth \/ r1 <> Err InvalidAuth) as [-> | Hother].
  { destruct r1 as [d|[]]; try (right; discriminate). now left. }
  - rewrite (get_data_second_try _ iso_other _ _ _ _ Hfirst).
    destruct (authenticate serve self w1) as [ra w2] eqn:Hauth.
    pose proof (authenticate_sent _ _ _ _ _ Hauth) as Hsent2.
    rewrite Hsent1, <- !app_assoc in Hsent2. simpl in Hsent2.
    destruct ra as [b|e].
    + destruct (__get_data serve self start w2) as [r3 w3] eqn:Hretry.
      pose proof (fetch_sent _ _ _ _ _ _ Hretry) as Hsent3.
      destruct Hsent2 as [[_ [e He]] | Hsent2]; [discriminate |].
      right. right. right. cbn [snd].
      rewrite Hsent3, Hsent2, <- app_assoc. reflexivity.
    + cbn [snd]. destruct Hsent2 as [[Hsent2 _] | Hsent2]; auto.
  - rewrite (get_data_first_try _ iso_other _ _ _ _ _ Hfirst Hother).
    left. exact Hsent1.
Qed.

(** X6: whatever the server answers, [get_data] sends the fetch first and
    then at most the login page, the login and one more fetch, in that
    order: never a third fetch or a second login. *)
Theorem get_data_sends_at_most_four_requests self start w :
  let w' := snd (get_data serve iso_other self start w) in
  let fetch := PostSchedule start in
  let login := PostLogin (login_params self) in
  sent w' = (sent w ++ [fetch])%list \/
  sent w' = (sent w ++ [fetch; GetLoginPage])%list \/
  sent w' = (sent w ++ [fetch; GetLoginPage; login])%list \/
  sent w' = (sent w ++ [fetch; GetLoginPage; login; fetch])%list.
Proof. exact (get_data_sent self start w). Qed.

(** X7: only [InvalidAuth] makes [get_data] log in again: any other
    error of the first fetch (a transport error, a body that is no JSON, a
    body without [resultlist]) is passed on at once, with the fetch as the
    only request sent. *)
Theorem get_data_passes_other_errors_on self start w e w1 :
  __get_data serve self start w = (Err e, w1) ->
  e <> InvalidAuth ->
  get_data serve iso_other self start w = (Err e, w1) /\
  sent w1 = (sent w ++ [PostSchedule start])%list.
Proof.
  intros Hfirst He. split.
  - rewrite (get_data_first_try _ iso_other _ _ _ _ _ Hfirst);
      [reflexivity | congruence].
  - eapply fetch_sent; eassumption.
Qed.

(** X8: [authenticate] asks for the login page first.  When that request
    fails, its error is the outcome and no login is sent; otherwise the
    login POST with the credentials follows, and nothing else, whatever
    the outcome. *)
Theorem authenticate_sends_page_then_login self w :
  match serve GetLoginPage (remote w) with
  | (Err e, s) =>
      authenticate serve self w
      = (Err e, mkWorld s (sent w ++ [GetLoginPage]))
  | (Ok _, _) =>
      sent (snd (authenticate serve self w))
      = (sent w ++ [GetLoginPage; PostLogin (login_params self)])%list
  end.
Proof.
  destruct (serve GetLoginPage (remote w)) as [[r0|e] s] eqn:Hget.
  - destruct (authenticate serve self w) as [r w'] eqn:Hauth. cbn [snd].
    destruct (authenticate_sent _ _ _ _ _ Hauth) as [[_ [e He]] | Hsent];
      [| exact Hsent].
    subst r. revert Hauth. run. rewrite Hget. simpl.
    destruct (serve (PostLogin (login_params self)) s) as [[resp|e'] s2];
      simpl.
    2: { intros H; inversion H. now rewrite <- app_assoc. }
    destruct (json resp) as [data|e']; simpl.
    2: { intros H; inversion H. now rewrite <- app_assoc. }
    destruct (getitem data "errorcode") as [code|e']; simpl.
    2: { intros H; inversion H. now rewrite <- app_assoc. }
    destruct (ne_str code ""); intros H; inversion H;
      now rewrite <- app_assoc.
  - run. rewrite Hget. reflexivity.
Qed.

(** X9: a login response whose body cannot be subscripted with
    [errorcode] does not count as a failed login: the error of the
    subscript ([KeyError] for an object without the key, [TypeError] for a
    body that is no object) is the outcome, not [InvalidAuth]. *)
Theorem authenticate_without_errorcode self w r0 s1 r s2 data :
  serve GetLoginPage (remote w) = (Ok r0, s1) ->
  serve (PostLogin (login_params self)) s1 = (Ok r, s2) ->
  json r = Ok data ->
  (forall bindings,
      data = VDict bindings -> assoc "errorcode" bindings = None ->
      fst (authenticate serve self w) = Err KeyError) /\
  ((forall bindings, data <> VDict bindings) ->
   fst (authenticate serve self w) = Err TypeError).
Proof.
  intros Hget Hpost Hjson.
  assert (forall e, getitem data "errorcode" = Err e ->
                    fst (authenticate serve self w) = Err e) as Herr.
  { intros e He. run. rewrite Hget. simpl. rewrite Hpost, Hjson. simpl.
    rewrite He. reflexivity. }
  split.
  - intros bindings -> Hnone. apply Herr. simpl. now rewrite Hnone.
  - intros Hnot. apply Herr. destruct data; try reflexivity.
    exfalso. eapply Hnot. reflexivity.
Qed.

End Requests.

Lemma append_cancel_l (a x y : string) : a ++ x = a ++ y -> x = y.
Proof.
  induction a as [|c a IH]; simpl; intros H; [exact H |].
  inversion H. now apply IH.
Qed.

Lemma append_cancel_r (a b c : string) : a ++ c = b ++ c -> a = b.
Proof.
  revert b. induction a as [|x a IH]; intros b H.
  - destruct b as [|y b]; [reflexivity |].
    apply (f_equal String.length) in H. rewrite !length_app in H.
    simpl in H. lia.
  - destruct b as [|y b].
    + apply (f_equal String.length) in H. rewrite !length_app in H.
      simpl in H. lia.
    + simpl in H. inversion H. f_equal. now apply IH.
Qed.

(** Two texts cut at the first occurrence of a character are equal piece
    by piece. *)
Lemma split_at_first (c : ascii) (u u' x x' : string) :
  lacks c u = true -> lacks c u' = true ->
  u ++ String c x = u' ++ String c x' ->
  u = u' /\ x = x'.
Proof.
  revert u'. induction u as [|a u IH]; intros u' Hu Hu' H.
  - destruct u' as [|a' u']; simpl in H.
    + inversion H. auto.
    + inversion H; subst. simpl in Hu'. rewrite Ascii.eqb_refl in Hu'.
      discriminate.
  - destruct u' as [|a' u']; simpl in H.
    + inversion H; subst. simpl in Hu. rewrite Ascii.eqb_refl in Hu.
      discriminate.
    + inversion H; subst. simpl in Hu, Hu'.
      apply andb_prop in Hu as [_ Hu]. apply andb_prop in Hu' as [_ Hu'].
      destruct (IH _ Hu Hu' H2) as [-> ->]. auto.
Qed.

(** X10: the credentials go into [params] as they are, so the field is
    ambiguous: a user name that carries ["&pwdPassword="] and the rest as
    its password give the same [params] as the split one place later. *)
Theorem login_params_ambiguous (u p q : string) :
  login_params (mkYoshikei (u ++ "&pwdPassword=" ++ p) q)
  = login_params (mkYoshikei u (p ++ "&pwdPassword=" ++ q)) /\
  mkYoshikei (u ++ "&pwdPassword=" ++ p) q
  <> mkYoshikei u (p ++ "&pwdPassword=" ++ q).
Proof.
  split.
  - unfold login_params. cbn [username password].
    rewrite !append_assoc_str. reflexivity.
  - intros H. inversion H as [[Hu Hp]].
    apply (f_equal String.length) in Hu. rewrite length_app in Hu.
    simpl in Hu. lia.
Qed.

(** X11: for user names without [&] the [params] field tells the
    credentials apart: equal [params] come from equal user names and
    passwords. *)
Theorem login_params_injective (a b : Yoshikei) :
  lacks "&" (username a) = true ->
  lacks "&" (username b) = true ->
  login_params a = login_params b ->
  a = b.
Proof.
  destruct a as [u p], b as [u' p']. cbn [username password].
  intros Hu Hu' H. unfold login_params in H. cbn [username password] in H.
  apply append_cancel_l in H.
  change (u ++ String "&" ("pwdPassword=" ++ p ++ "&nexturl=&device=pc")
          = u' ++ String "&" ("pwdPassword=" ++ p' ++ "&nexturl=&device=pc"))
    in H.
  destruct (split_at_first _ _ _ _ _ Hu Hu' H) as [-> Hrest].
  apply append_cancel_l, append_cancel_r in Hrest. now subst.
Qed.

Lemma get_data_passes_other_errors_on_witness :
  get_data (Portal.serve Portal.account (fun _ => Ok (VDict []))) Portal.no_iso
    Portal.me 739009 Portal.open_session
  = (Err KeyError, mkWorld (Portal.mkState true) [PostSchedule 739009]) /\
  sent (mkWorld (Portal.mkState true) [PostSchedule 739009])
  = (sent Portal.open_session ++ [PostSchedule 739009])%list.
Proof.
  apply (get_data_passes_other_errors_on
           (Portal.serve Portal.account (fun _ => Ok (VDict []))) Portal.no_iso
           Portal.me 739009 Portal.open_session KeyError).
  - reflexivity.
  - discriminate.
Defined.

Lemma authenticate_without_errorcode_witness :
  fst (authenticate
         (fun req (s : unit) =>
            (Ok (mkResponse [] (Ok (VDict [("status", VStr "ok")]))), s))
         Portal.me (mkWorld tt [])) = Err KeyError.
Proof.
  apply (authenticate_without_errorcode
           (fun req (s : unit) =>
              (Ok (mkResponse [] (Ok (VDict [("status", VStr "ok")]))), s))
           Portal.me (mkWorld tt [])
           (mkResponse [] (Ok (VDict [("status", VStr "ok")]))) tt
           (mkResponse [] (Ok (VDict [("status", VStr "ok")]))) tt
           (VDict [("status", VStr "ok")])
           eq_refl eq_refl eq_refl)
    with (bindings := [("status", VStr "ok")]).
  - reflexivity.
  - reflexivity.
Defined.

Lemma login_params_injective_witness :
  mkYoshikei "user" "a&b" = mkYoshikei "user" "a&b".
Proof.
  apply (login_params_injective (mkYoshikei "user" "a&b")
                                (mkYoshikei "user" "a&b")).
  - reflexivity.
  - reflexivity.
  - reflexivity.
Defined.

(* ----------------------------------------------------------------- *)
(** *** The range and the data of [get_events] *)

Section Range.

Context {server : Type}.
Variable serve : request -> server -> result response * server.
Variable iso_other : string -> result date.

(** X12: for a range with [end_] before [start] the loop is not entered:
    [get_events] still fetches the data of [start], passes an error of
    that fetch on, and otherwise returns the empty list. *)
Theorem get_events_of_empty_range self start end_ w :
  end_ < start ->
  get_events serve iso_other self start end_ w
  = Some (match get_data serve iso_other self start w with
          | (Ok _, w') => (Ok [], w')
          | (Err e, w') => (Err e, w')
          end).
Proof.
  intros Hlt. unfold get_events.
  destruct (get_data serve iso_other self start w) as [[data|e] w'];
    [| reflexivity].
  cbn [get_events_loop].
  replace (start <=? end_) with false by (symmetry; apply Z.leb_gt; lia).
  reflexivity.
Qed.

(** A day that is in the data is found without a request. *)
Lemma locate_day_hit self data cur day (w : world server) :
  next_on data cur = Ok day -> day <> VNone ->
  locate_day serve iso_other self data cur w = (Ok (data, day), w).
Proof.
  intros Hday Hnone. unfold locate_day, bind, lift, ret. rewrite Hday.
  destruct day; try reflexivity. contradiction.
Qed.

Lemma loop_body_hit self data cur day events (w : world server) :
  next_on data cur = Ok day -> day <> VNone ->
  exists r,
    loop_body serve iso_other self cur data events w = (r, w) /\
    forall data' events' next,
      r = Ok (data', events', next) -> data' = data /\ next = cur + 1.
Proof.
  intros Hday Hnone. unfold loop_body, bind, lift, ret.
  rewrite (locate_day_hit _ _ _ _ _ Hday Hnone).
  destruct (getitem day "orderitems") as [oi|e];
    [| eexists; split; [reflexivity | discriminate]].
  destruct (py_iter oi) as [items|e];
    [| eexists; split; [reflexivity | discriminate]].
  destruct (append_events day items events) as [events1|e];
    [| eexists; split; [reflexivity | discriminate]].
  destruct (add_one_day cur) as [next1|e] eqn:Hnext;
    [| eexists; split; [reflexivity | discriminate]].
  eexists; split; [reflexivity |].
  intros data' events' next H; inversion H; subst.
  split; [reflexivity |]. now apply add_one_day_ok.
Qed.

Lemma get_events_loop_covered self end_ data (w : world server) :
  forall fuel cur events,
    (days_between cur end_ < fuel)%nat ->
    (forall d, cur <= d <= end_ ->
               exists day, next_on data d = Ok day /\ day <> VNone) ->
    exists r,
      get_events_loop serve iso_other fuel self cur end_ data events w
      = Some (r, w).
Proof.
  induction fuel as [|fuel IH]; intros cur events Hfuel Hcov; [lia |].
  cbn [get_events_loop].
  destruct (cur <=? end_) eqn:Hle; [| eauto].
  apply Z.leb_le in Hle.
  destruct (Hcov cur ltac:(lia)) as (day & Hday & Hnone).
  destruct (loop_body_hit self data cur day events w Hday Hnone)
    as (r & Hbody & Hnext).
  rewrite Hbody. destruct r as [[[data' events'] next]|e]; [| eauto].
  destruct (Hnext _ _ _ eq_refl) as [-> ->].
  apply IH.
  - unfold days_between in *. lia.
  - intros d Hd. apply Hcov. lia.
Qed.

(** X13: when the data fetched for [start] has a row for every day of
    the range, [get_events] sends no request after that first fetch,
    whether it returns or raises. *)
Theorem get_events_reuses_fetched_data self start end_ w data w1 :
  get_data serve iso_other self start w = (Ok data, w1) ->
  (forall d, start <= d <= end_ ->
             exists day, next_on data d = Ok day /\ day <> VNone) ->
  exists r, get_events serve iso_other self start end_ w = Some (r, w1).
Proof.
  intros Hdata Hcov. unfold get_events. rewrite Hdata.
  apply get_events_loop_covered; [lia | exact Hcov].
Qed.

(** The schedule requests that [get_data] adds are for its date. *)
Lemma get_data_fetches_its_date self cur (w : world server) d :
  In (PostSchedule d) (sent (snd (get_data serve iso_other self cur w))) ->
  In (PostSchedule d) (sent w) \/ d = cur.
Proof.
  pose proof (get_data_sent serve iso_other self cur w) as Hsent.
  cbv zeta in Hsent. intros Hin.
  destruct Hsent as [H | [H | [H | H]]]; rewrite H in Hin;
    apply in_app_or in Hin as [Hin | Hin]; auto; right;
    simpl in Hin; repeat destruct Hin as [Hin | Hin];
    try discriminate; try contradiction; congruence.
Qed.

(** A turn of the loop leaves the world as it found it, or as the one
    supplementary [get_data] left it. *)
Lemma loop_body_world self cur data events (w : world server) :
  snd (loop_body serve iso_other self cur data events w) = w \/
  snd (loop_body serve iso_other self cur data events w)
  = snd (get_data serve iso_other self cur w).
Proof.
  assert (forall (data' day : value) (w0 : world server),
             snd (match getitem day "orderitems" with
                  | Ok oi =>
                      match py_iter oi with
                      | Ok items =>
                          match append_events day items events with
                          | Ok events' =>
                              match add_one_day cur with
                              | Ok next => (Ok (data', events', next), w0)
                              | Err e => (Err e, w0)
                              end
                          | Err e => (Err e, w0)
                          end
                      | Err e => (Err e, w0)
                      end
                  | Err e => (Err e, w0)
                  end) = w0) as Hpure.
  { intros data' day w0.
    destruct (getitem day "orderitems") as [oi|e]; [| reflexivity].
    destruct (py_iter oi) as [items|e]; [| reflexivity].
    destruct (append_events day items events); [| reflexivity].
    destruct (add_one_day cur); reflexivity. }
  unfold loop_body, locate_day, bind, lift, ret.
  destruct (next_on data cur) as [day|e]; [| now left].
  destruct day; try (left; apply Hpure).
  right. destruct (get_data serve iso_other self cur w) as [[more|e] w1];
    [| reflexivity].
  destruct (iadd data more) as [data1|e]; [| reflexivity].
  destruct (next_on data1 cur) as [day1|e]; [| reflexivity].
  apply Hpure.
Qed.

Lemma loop_body_fetches_its_date self cur data events (w : world server) d :
  In (PostSchedule d)
     (sent (snd (loop_body serve iso_other self cur data events w))) ->
  In (PostSchedule d) (sent w) \/ d = cur.
Proof.
  destruct (loop_body_world self cur data events w) as [-> | ->];
    [auto | apply get_data_fetches_its_date].
Qed.

Lemma get_events_loop_fetches_in_range self start end_ :
  forall fuel cur data events (w : world server) r w' d,
    start <= cur ->
    get_events_loop serve iso_other fuel self cur end_ data events w
    = Some (r, w') ->
    In (PostSchedule d) (sent w') ->
    In (PostSchedule d) (sent w) \/ start <= d <= end_.
Proof.
  induction fuel as [|fuel IH]; intros cur data events w r w' d Hcur;
    [discriminate |].
  cbn [get_events_loop].
  destruct (cur <=? end_) eqn:Hle.
  2: { intros H; inversion H; subst. auto. }
  apply Z.leb_le in Hle.
  pose proof (loop_body_fetches_its_date self cur data events w d) as Hturn.
  destruct (loop_body serve iso_other self cur data events w)
    as [[[[data' events'] next]|e] w1] eqn:Hbody; cbn [snd] in Hturn.
  - apply loop_body_ok in Hbody as (_ & _ & _ & _ & _ & _ & _ & Hnext).
    apply add_one_day_ok in Hnext. subst next.
    intros Hloop Hin.
    destruct (IH (cur + 1) data' events' w1 r w' d ltac:(lia) Hloop Hin)
      as [Hold | Hd];
      [| now right].
    destruct (Hturn Hold) as [Hw | ->]; [now left | right; lia].
  - intros H Hin; inversion H; subst.
    destruct (Hturn Hin) as [Hw | ->]; [now left | right; lia].
Qed.

(** X14: every schedule request that [get_events] sends is for [start]
    or for a later day up to [end_]: no day outside the range is ever
    fetched. *)
Theorem get_events_fetches_only_the_range self start end_ w r w' d :
  get_events serve iso_other self start end_ w = Some (r, w') ->
  In (PostSchedule d) (sent w') ->
  In (PostSchedule d) (sent w) \/ d = start \/ start < d <= end_.
Proof.
  unfold get_events.
  pose proof (get_data_fetches_its_date self start w d) as Hfirst.
  destruct (get_data serve iso_other self start w) as [[data|e] w1];
    cbn [snd] in Hfirst.
  - intros Hloop Hin.
    destruct (get_events_loop_fetches_in_range
                self start end_ _ start data [] w1 r w' d ltac:(lia) Hloop Hin)
      as [Hold | Hd].
    + destruct (Hfirst Hold); auto.
    + right. lia.
  - intros H Hin; inversion H; subst. destruct (Hfirst Hin); auto.
Qed.

End Range.

Lemma new_event_links (day item : value) (ev : CalendarEvent) :
  new_event day item = Ok ev -> links_to_uid ev.
Proof.
  unfold new_event.
  destruct (getitem day "deliverydate"); cbn [rbind]; [| discriminate].
  destruct (getitem item "itemname"); cbn [rbind]; [| discriminate].
  destruct (getitem item "link") as [link|e]; cbn [rbind]; [| discriminate].
  destruct link; cbn [str_add rbind]; try discriminate.
  destruct (getitem item "menuname"); cbn [rbind]; [| discriminate].
  intros H; inversion H. exists s. split; reflexivity.
Qed.

Lemma append_events_for (d : date) (day : value) (items : list value)
      (evs : list CalendarEvent) :
  getitem day "deliverydate" = Ok (VDate d) ->
  Forall2 (event_for d) items evs ->
  forall events, append_events day items events = Ok (events ++ evs)%list.
Proof.
  intros Hday Hall. induction Hall as [|item ev items evs Hev _ IH];
    intros events; cbn [append_events].
  - now rewrite app_nil_r.
  - destruct Hev as (name & menu & link & (Hn & Hm & Hl) & ->).
    unfold new_event. rewrite Hday, Hn, Hm, Hl. cbn [rbind str_add].
    rewrite IH, <- app_assoc. reflexivity.
Qed.

Lemma add_one_day_next (d : date) :
  0 <= d < MAXORDINAL -> add_one_day d = Ok (d + 1).
Proof.
  intros Hd. unfold add_one_day.
  replace (0 <? d + 1) with true by (symmetry; apply Z.ltb_lt; lia).
  replace (d + 1 <=? MAXORDINAL) with true by (symmetry; apply Z.leb_le; lia).
  reflexivity.
Qed.

Section Days.

Context {server : Type}.
Variable serve : request -> server -> result response * server.
Variable iso_other : string -> result date.

Lemma get_events_loop_links fuel self end_ :
  forall cur data events (w : world server) evs w',
    Forall links_to_uid events ->
    get_events_loop serve iso_other fuel self cur end_ data events w
    = Some (Ok evs, w') ->
    Forall links_to_uid evs.
Proof.
  induction fuel as [|fuel IH]; intros cur data events w evs w' Hev;
    [discriminate |].
  cbn [get_events_loop].
  destruct (cur <=? end_).
  2: { intros H; inversion H; subst. exact Hev. }
  destruct (loop_body serve iso_other self cur data events w)
    as [[[[data' events'] next]|e] w1] eqn:Hbody; [| discriminate].
  apply loop_body_ok in Hbody
    as (day & oi & items & _ & _ & _ & Happ & _).
  apply IH.
  eapply append_events_Forall; [| exact Hev | exact Happ].
  intros item ev. apply new_event_links.
Qed.

(** X15: in every event that [get_events] returns the [uid] is a str,
    and the [description] is the base URL followed by that [uid]. *)
Theorem get_events_descriptions_link_to_uids self start end_ w evs w' :
  get_events serve iso_other self start end_ w = Some (Ok evs, w') ->
  Forall links_to_uid evs.
Proof.
  unfold get_events.
  destruct (get_data serve iso_other self start w) as [[data|e] w1];
    [| discriminate].
  apply get_events_loop_links. constructor.
Qed.

(** The loop over days that are all in the data, with well-formed items. *)
Lemma get_events_loop_days self end_ rows (w : world server)
      (items_of : date -> list value) (evs_of : date -> list CalendarEvent) :
  end_ < MAXORDINAL ->
  forall fuel cur events,
    0 <= cur ->
    (days_between cur end_ < fuel)%nat ->
    (forall d, cur <= d <= end_ ->
               exists day,
                 first_on rows d = Ok day /\
                 getitem day "orderitems" = Ok (VList (items_of d)) /\
                 Forall2 (event_for d) (items_of d) (evs_of d)) ->
    get_events_loop serve iso_other fuel self cur end_ (VList rows) events w
    = Some (Ok (events ++ flat_map evs_of
                                   (days_from cur (days_between cur end_)))%list,
            w).
Proof.
  intros Hend.
  induction fuel as [|fuel IH]; intros cur events Hcur Hfuel Hdays; [lia |].
  cbn [get_events_loop].
  destruct (cur <=? end_) eqn:Hle.
  2: { apply Z.leb_gt in Hle.
       replace (days_between cur end_) with 0%nat
         by (unfold days_between; lia).
       cbn. now rewrite app_nil_r. }
  apply Z.leb_le in Hle.
  destruct (Hdays cur ltac:(lia)) as (day & Hday & Hoi & Hevs).
  assert (day <> VNone) as Hnone by (intros ->; discriminate Hoi).
  assert (getitem day "deliverydate" = Ok (VDate cur)) as Hdate.
  { destruct (first_on_found _ _ _ Hday); [contradiction | assumption]. }
  unfold loop_body, bind, lift, ret.
  rewrite (locate_day_hit serve iso_other self (VList rows) cur day w);
    [| exact Hday | exact Hnone].
  rewrite Hoi. cbn [py_iter].
  rewrite (append_events_for cur day _ _ Hdate Hevs).
  rewrite add_one_day_next by lia.
  rewrite IH; [| lia | unfold days_between in *; lia
               | intros d Hd; apply Hdays; lia].
  replace (days_between cur end_) with (S (days_between (cur + 1) end_))
    by (unfold days_between; lia).
  cbn [days_from flat_map]. now rewrite <- app_assoc.
Qed.

(** X16: when the data fetched for [start] has, for every day of the
    range, a first row of that date whose order items are well formed,
    [get_events] returns the events of the days in the order of the days
    and, within a day, in the order of the items; it sends no further
    request.  The range ends before 9999-12-31. *)
Theorem get_events_lists_days_then_items self start end_ w rows w1
        (items_of : date -> list value) (evs_of : date -> list CalendarEvent) :
  0 <= start -> end_ < MAXORDINAL ->
  get_data serve iso_other self start w = (Ok (VList rows), w1) ->
  (forall d, start <= d <= end_ ->
             exists day,
               first_on rows d = Ok day /\
               getitem day "orderitems" = Ok (VList (items_of d)) /\
               Forall2 (event_for d) (items_of d) (evs_of d)) ->
  get_events serve iso_other self start end_ w
  = Some (Ok (flat_map evs_of (days_from start (days_between start end_))),
          w1).
Proof.
  intros Hstart Hend Hdata Hdays. unfold get_events. rewrite Hdata.
  rewrite (get_events_loop_days self end_ rows w1 items_of evs_of Hend);
    [reflexivity | exact Hstart | lia | exact Hdays].
Qed.

(** X17: on a day for which neither the first fetch nor the
    supplementary one has a row, [get_events] raises [TypeError]; here the
    day is the first of the range, so both fetches are for [start]. *)
Theorem get_events_raises_on_missing_first_day self start end_ w
        rows w1 rows2 w2 :
  start <= end_ ->
  get_data serve iso_other self start w = (Ok (VList rows), w1) ->
  get_data serve iso_other self start w1 = (Ok (VList rows2), w2) ->
  Forall (fun row => getitem row "deliverydate" <> Ok (VDate start))
         (rows ++ rows2)%list ->
  get_events serve iso_other self start end_ w = Some (Err TypeError, w2).
Proof.
  intros Hle Hdata Hmore Hnone.
  pose proof (get_data_rows_dated _ _ _ _ _ _ _ Hdata) as Hdated.
  pose proof (get_data_rows_dated _ _ _ _ _ _ _ Hmore) as Hdated2.
  assert (first_on (rows ++ rows2) start = Ok VNone) as Hall.
  { rewrite <- (app_nil_r (rows ++ rows2)).
    rewrite first_on_skip; [reflexivity | | exact Hnone].
    apply Forall_app. split; assumption. }
  assert (first_on rows start = Ok VNone) as Hfirst.
  { rewrite <- (app_nil_r rows).
    rewrite first_on_skip; [reflexivity | exact Hdated |].
    apply Forall_app in Hnone as [H _]. exact H. }
  unfold get_events. rewrite Hdata.
  apply missing_day_raises with (data' := VList (rows ++ rows2));
    [exact Hle |].
  unfold locate_day, bind, lift, ret, next_on. cbn [py_iter rbind].
  rewrite Hfirst, Hmore. cbn [iadd py_iter rbind]. rewrite Hall.
  reflexivity.
Qed.

End Days.

(* ----------------------------------------------------------------- *)
(** *** The calendar entity *)

Section Entity.

Context {server : Type}.
Variable serve : request -> server -> result response * server.
Variable iso_other : string -> result date.

(** X19: [async_get_events] always ends.  It asks the client for the
    dates of the two datetimes, whatever their time of day; when the client
    returns, the events, all within those dates, are returned and are what
    the property [event] gives from then on; when it raises, the entity is
    left as it was.  Name, client and [entity_id] never change. *)
Theorem async_get_events_stores_what_it_returns
        self start_date end_date (w : world server) :
  exists out self' w',
    YoshikeiCalender.async_get_events serve iso_other self
      start_date end_date w = Some (out, self', w') /\
    get_events serve iso_other (YoshikeiCalender._client self)
      (dt_date start_date) (dt_date end_date) w = Some (out, w') /\
    YoshikeiCalender.name self' = YoshikeiCalender.name self /\
    YoshikeiCalender._client self' = YoshikeiCalender._client self /\
    YoshikeiCalender.entity_id self' = YoshikeiCalender.entity_id self /\
    match out with
    | Ok events =>
        YoshikeiCalender.event self' = Some events /\
        Forall (within (dt_date start_date) (dt_date end_date)) events
    | Err _ => self' = self
    end.
Proof.
  unfold YoshikeiCalender.async_get_events.
  assert (exists out w',
             get_events serve iso_other (YoshikeiCalender._client self)
               (dt_date start_date) (dt_date end_date) w = Some (out, w') /\
             forall events, out = Ok events ->
               Forall (within (dt_date start_date) (dt_date end_date)) events)
    as (out & w' & Hrun & Hin).
  { unfold get_events.
    destruct (get_data serve iso_other (YoshikeiCalender._client self)
                (dt_date start_date) w) as [[data|e] w1].
    - destruct (get_events_loop_terminates serve iso_other
                  (S (days_between (dt_date start_date) (dt_date end_date)))
                  (YoshikeiCalender._client self)
                  (dt_date start_date) (dt_date end_date) data [] w1
                  ltac:(lia)) as [[out w'] Hloop].
      exists out, w'. split; [exact Hloop |].
      intros events ->.
      eapply get_events_loop_within; [| | exact Hloop]; [lia | constructor].
    - exists (Err e), w1. split; [reflexivity | discriminate]. }
  rewrite Hrun. destruct out as [events|e].
  - eexists _, _, _. split; [reflexivity |]. split; [reflexivity |].
    cbn. repeat (split; [reflexivity |]). now apply Hin.
  - eexists _, _, _. split; [reflexivity |]. split; [reflexivity |].
    repeat (split; [reflexivity |]). reflexivity.
Qed.

End Entity.

(* ----------------------------------------------------------------- *)
(** *** Slashed delivery dates through [get_data] *)

Section Deliveries.

Context {server : Type}.
Variable serve : request -> server -> result response * server.
Variable iso_other : string -> result date.

Lemma to_date_slashed raw dt :
  slashed_date raw dt -> to_date iso_other raw = Ok dt.
Proof.
  intros (y & m & d & trail & Ly & Lm & Ld & Hy & Hm & Hd & Ht & -> & Hdt).
  rewrite to_date_of_delivery_string by assumption. exact Hdt.
Qed.

Lemma normalize_day_slashed day dt :
  slashed_row day dt ->
  exists day',
    normalize_day iso_other day = Ok day' /\
    getitem day' "deliverydate" = Ok (VDate dt).
Proof.
  intros (raw & Hraw & Hs). unfold normalize_day. rewrite Hraw.
  cbn [rbind]. rewrite (to_date_slashed _ _ Hs). cbn [rbind].
  destruct day; try discriminate Hraw.
  eexists. split; [reflexivity |]. simpl. now rewrite assoc_set_same.
Qed.

Lemma normalize_rows_slashed rows :
  forall rows',
    normalize_rows iso_other rows = Ok rows' ->
    Forall2 (fun row row' =>
               forall dt, slashed_row row dt ->
                          getitem row' "deliverydate" = Ok (VDate dt))
            rows rows'.
Proof.
  induction rows as [|day rest IH]; simpl; intros rows'.
  - intros E; inversion E. constructor.
  - destruct (normalize_day iso_other day) as [day'|e] eqn:Hday; simpl;
      [| discriminate].
    destruct (normalize_rows iso_other rest) as [rest'|e]; simpl;
      [| discriminate].
    intros E; inversion E. constructor; [| apply IH; reflexivity].
    intros dt Hs.
    destruct (normalize_day_slashed day dt Hs) as (day2 & Hday2 & Hdate).
    rewrite Hday in Hday2. inversion Hday2. exact Hdate.
Qed.

Lemma normalize_rows_of_slashed rows dates :
  Forall2 slashed_row rows dates ->
  exists rows',
    normalize_rows iso_other rows = Ok rows' /\
    Forall2 (fun row' dt => getitem row' "deliverydate" = Ok (VDate dt))
            rows' dates.
Proof.
  induction 1 as [|day dt rest dates Hs _ (rest' & Hrest & Hall)]; simpl.
  - exists []. split; [reflexivity | constructor].
  - destruct (normalize_day_slashed day dt Hs) as (day' & Hday & Hdate).
    rewrite Hday, Hrest. simpl.
    exists (day' :: rest'). split; [reflexivity |].
    constructor; assumption.
Qed.

(** C7, amended: the normalization of [get_data] maps a raw
    [deliverydate] written as four digits, a slash, two digits, a slash,
    two digits, a space and a trailing text without a line feed to the date
    of its year, month and day.  Whatever list [normalize] returns has that
    date in each row that came so written; when every row that a fetch
    returns is so written, [get_data] returns the rows with their dates in
    place of the strings and their other fields as they were; and the row
    of ["2024/05/03 00:00:00"] gets the date 2024-05-03. *)
Theorem get_data_normalizes_slashed_dates :
  (forall rows rows',
      normalize iso_other (VList rows) = Ok (VList rows') ->
      Forall2 (fun row row' =>
                 forall dt, slashed_row row dt ->
                            getitem row' "deliverydate" = Ok (VDate dt))
              rows rows') /\
  (forall self start (w : world server) rows w1 dates,
      __get_data serve self start w = (Ok (VList rows), w1) ->
      Forall2 slashed_row rows dates ->
      exists rows',
        get_data serve iso_other self start w = (Ok (VList rows'), w1) /\
        normalize iso_other (VList rows) = Ok (VList rows') /\
        Forall2 (fun row' dt => getitem row' "deliverydate" = Ok (VDate dt))
                rows' dates /\
        Forall2 same_but_deliverydate rows rows') /\
  normalize iso_other
    (VList [VDict [("deliverydate", VStr "2024/05/03 00:00:00")]])
  = Ok (VList [VDict [("deliverydate", VDate (ymd2ord 2024 5 3))]]).
Proof.
  split; [| split].
  - intros rows rows'. cbn [normalize].
    destruct (normalize_rows iso_other rows) as [rows2|e] eqn:Hrows;
      cbn [rbind]; [| discriminate].
    intros E; inversion E; subst rows2.
    apply normalize_rows_slashed. exact Hrows.
  - intros self start w rows w1 dates Hfetch Hall.
    destruct (normalize_rows_of_slashed rows dates Hall)
      as (rows' & Hrows & Hdates).
    exists rows'.
    assert (normalize iso_other (VList rows) = Ok (VList rows')) as Hnorm
        by (cbn [normalize]; rewrite Hrows; reflexivity).
    split; [| split; [exact Hnorm | split; [exact Hdates |]]].
    + rewrite (get_data_first_try serve iso_other self start w _ w1 Hfetch)
        by discriminate.
      cbn [rbind]. rewrite Hnorm. reflexivity.
    + apply (normalize_rows_keep iso_other). exact Hrows.
  - reflexivity.
Qed.

End Deliveries.

(* ----------------------------------------------------------------- *)
(** *** Days with nothing to deliver *)

Lemma days_from_range (d : date) (n : nat) :
  forall start, In d (days_from start n) -> start <= d < start + Z.of_nat n.
Proof.
  induction n as [|n IH]; intros start; cbn [days_from In]; [tauto |].
  intros [<- | Hin]; [lia |]. apply IH in Hin. lia.
Qed.

Lemma days_from_covers (d : date) (n : nat) :
  forall start, start <= d < start + Z.of_nat n -> In d (days_from start n).
Proof.
  induction n as [|n IH]; intros start Hd; cbn [days_from In]; [lia |].
  destruct (Z.eq_dec start d) as [-> | Hne]; [now left | right].
  apply IH. lia.
Qed.

Lemma event_for_on_day (d : date) items evs ev :
  Forall2 (event_for d) items evs -> In ev evs -> on_day d ev.
Proof.
  induction 1 as [|item ev' items evs Hev _ IH]; cbn [In]; [tauto |].
  intros [<- | Hin]; [| exact (IH Hin)].
  destruct Hev as (name & menu & link & _ & ->). reflexivity.
Qed.

Section Idle.

Context {server : Type}.
Variable serve : request -> server -> result response * server.
Variable iso_other : string -> result date.

(** C8, amended: on a day of the range before 9999-12-31 whose row, found
    at once or after the supplementary fetch, has an empty [orderitems],
    the turn of the loop adds no event and raises nothing, and the loop,
    with turns enough for the days left as [get_events] gives it, ends
    with the outcome that it has from the following day on with the same
    events.  When the data fetched for [start] has a well-formed
    first row for every day of a range that ends before 9999-12-31,
    [get_events] returns, its list has no event on a day whose row has no
    item, and the events of every day of the range are in it. *)
Theorem empty_day_adds_no_event :
  (forall fuel self cur end_ data events (w : world server)
          data' day w' orderitems,
      0 <= cur < MAXORDINAL -> cur <= end_ ->
      (days_between cur end_ < S fuel)%nat ->
      locate_day serve iso_other self data cur w = (Ok (data', day), w') ->
      getitem day "orderitems" = Ok orderitems ->
      py_iter orderitems = Ok [] ->
      loop_body serve iso_other self cur data events w
      = (Ok (data', events, cur + 1), w') /\
      exists outcome,
        get_events_loop serve iso_other (S fuel) self cur end_ data events w
        = Some outcome /\
        get_events_loop serve iso_other fuel self (cur + 1) end_
                        data' events w'
        = Some outcome) /\
  (forall self start end_ (w : world server) rows w1
          (items_of : date -> list value)
          (evs_of : date -> list CalendarEvent),
      0 <= start -> end_ < MAXORDINAL ->
      get_data serve iso_other self start w = (Ok (VList rows), w1) ->
      (forall d, start <= d <= end_ ->
                 exists day,
                   first_on rows d = Ok day /\
                   getitem day "orderitems" = Ok (VList (items_of d)) /\
                   Forall2 (event_for d) (items_of d) (evs_of d)) ->
      exists evs,
        get_events serve iso_other self start end_ w = Some (Ok evs, w1) /\
        (forall d, start <= d <= end_ -> items_of d = [] ->
                   Forall (fun ev => ~ on_day d ev) evs) /\
        (forall d ev, start <= d <= end_ -> In ev (evs_of d) -> In ev evs)).
Proof.
  split.
  - intros fuel self cur end_ data events w data' day w' orderitems
           Hcur Hle Hfuel Hday Hoi Hitems.
    assert (loop_body serve iso_other self cur data events w
            = (Ok (data', events, cur + 1), w')) as Hbody.
    { unfold loop_body, bind, lift, ret. rewrite Hday, Hoi, Hitems. simpl.
      rewrite add_one_day_next by exact Hcur. reflexivity. }
    split; [exact Hbody |].
    destruct (get_events_loop_terminates serve iso_other fuel self
                (cur + 1) end_ data' events w') as [outcome Hloop].
    { unfold days_between in *. lia. }
    exists outcome. split; [| exact Hloop].
    cbn [get_events_loop]. apply Z.leb_le in Hle. rewrite Hle, Hbody.
    exact Hloop.
  - intros self start end_ w rows w1 items_of evs_of Hstart Hend Hdata Hdays.
    exists (flat_map evs_of (days_from start (days_between start end_))).
    split; [| split].
    + unfold get_events. rewrite Hdata.
      rewrite (get_events_loop_days serve iso_other self end_ rows w1
                 items_of evs_of Hend);
        [reflexivity | exact Hstart | lia | exact Hdays].
    + intros d Hd Hnone. apply Forall_forall. intros ev Hin Hon.
      apply in_flat_map in Hin as (d' & Hd' & Hev).
      apply days_from_range in Hd'.
      assert (start <= d' <= end_) as Hrange
          by (unfold days_between in Hd'; lia).
      destruct (Hdays d' Hrange) as (day & _ & _ & Hall).
      pose proof (event_for_on_day d' _ _ ev Hall Hev) as Hon'.
      unfold on_day in *. rewrite Hon in Hon'. inversion Hon'; subst d'.
      rewrite Hnone in Hall. inversion Hall as [Hitems Hnil |].
      rewrite <- Hnil in Hev. exact Hev.
    + intros d ev Hd Hev. apply in_flat_map. exists d. split; [| exact Hev].
      apply days_from_covers. unfold days_between. lia.
Qed.

End Idle.

(* ----------------------------------------------------------------- *)
(** *** Spaces in the entity id *)

Lemma length_replace_char (old new : ascii) (s : string) :
  String.length (replace_char old new s) = String.length s.
Proof. induction s; simpl; [reflexivity | now rewrite IHs]. Qed.

Lemma replace_char_lacks (old new : ascii) (s : string) :
  new <> old -> lacks old (replace_char old new s) = true.
Proof.
  intros Hne. induction s as [|c s IH]; simpl; [reflexivity |].
  rewrite IH, andb_true_r.
  destruct (Ascii.eqb c old) eqn:Hc.
  - apply negb_true_iff, Ascii.eqb_neq. exact Hne.
  - now rewrite Hc.
Qed.

Lemma get_replace_char (old new : ascii) (s : string) :
  forall n,
    String.get n (replace_char old new s)
    = option_map (fun c => if Ascii.eqb c old then new else c)
                 (String.get n s).
Proof.
  induction s as [|c s IH]; intros n; simpl; [reflexivity |].
  destruct n; [reflexivity | apply IH].
Qed.

(** X18: the [entity_id] that [__init__] gives is ["calendar."] followed
    by the lower-cased name with an underscore in the place of each space:
    a text without a space, as long as the lower-cased name and equal to
    it at every other place. *)
Theorem entity_id_has_underscores_for_spaces
        (str_lower : string -> string) (name : string) (client : Yoshikei) :
  exists slug,
    YoshikeiCalender.entity_id
      (YoshikeiCalender.__init__ str_lower name client)
    = "calendar." ++ slug /\
    lacks " " slug = true /\
    String.length slug = String.length (str_lower name) /\
    forall n,
      String.get n slug
      = option_map (fun c => if Ascii.eqb c " " then "_"%char else c)
                   (String.get n (str_lower name)).
Proof.
  exists (replace_char " " "_" (str_lower name)).
  split; [reflexivity |].
  split; [apply replace_char_lacks; discriminate |].
  split; [apply length_replace_char | apply get_replace_char].
Qed.

(* ----------------------------------------------------------------- *)
(** *** The properties at work on the portal *)

Lemma re_sub_joins_digit_runs_witness :
  re_sub_deliverydate (VStr "2024/5/3 00:00:00") = Ok "2024-5-3".
Proof.
  apply (re_sub_joins_digit_runs "2024" "5" "3" "00:00:00");
    try reflexivity; discriminate.
Defined.

Lemma re_sub_keeps_text_after_line_feed_witness :
  re_sub_deliverydate (VStr ("2024/05/03 00:00" ++ String "010" "JST"))
  = Ok ("2024-05-03" ++ String "010" "JST").
Proof.
  apply (re_sub_keeps_text_after_line_feed "2024" "05" "03" "00:00" "JST");
    try reflexivity; discriminate.
Defined.

Lemma deliverydate_without_slash_witness :
  to_date Portal.no_iso (VStr "2024-05-03") = Ok (ymd2ord 2024 5 3).
Proof.
  exact (proj2 (deliverydate_without_slash_is_parsed_as_it_is Portal.no_iso)
               "2024" "05" "03"
               eq_refl eq_refl eq_refl eq_refl eq_refl eq_refl).
Defined.

Lemma get_events_of_empty_range_witness :
  get_events (Portal.serve Portal.account Portal.may2024) Portal.no_iso
    Portal.me 739010 739009 Portal.open_session
  = Some (Ok [], mkWorld (Portal.mkState true) [PostSchedule 739010]).
Proof.
  apply (get_events_of_empty_range
           (Portal.serve Portal.account Portal.may2024) Portal.no_iso
           Portal.me 739010 739009 Portal.open_session).
  lia.
Defined.

Lemma may2024_rows_cover (d : date) :
  739008 <= d <= 739009 ->
  exists day,
    first_on [Portal.dated_row 739008 [];
              Portal.dated_row 739009 [Portal.cut_meal; Portal.lovyu]] d
    = Ok day /\
    getitem day "orderitems"
    = Ok (VList (if d =? 739009 then [Portal.cut_meal; Portal.lovyu] else [])) /\
    Forall2 (event_for d)
      (if d =? 739009 then [Portal.cut_meal; Portal.lovyu] else [])
      (if d =? 739009
       then [Portal.event 739009 "Cut Meal" "Course A" "100401_D.aspx?id=1";
             Portal.event 739009 "Lovyu" "Course B" "100401_D.aspx?id=2"]
       else []).
Proof.
  intros Hd. assert (d = 739008 \/ d = 739009) as [-> | ->] by lia.
  - eexists. split; [reflexivity |]. split; [reflexivity |]. constructor.
  - eexists. split; [reflexivity |]. split; [reflexivity |].
    repeat constructor;
      eexists _, _, _; (split; [repeat split | reflexivity]).
Qed.

Lemma get_events_reuses_fetched_data_witness :
  exists r,
    get_events (Portal.serve Portal.account Portal.may2024) Portal.no_iso
      Portal.me 739008 739009 Portal.fresh
    = Some (r, mkWorld (Portal.mkState true)
                       [PostSchedule 739008; GetLoginPage;
                        PostLogin Portal.account; PostSchedule 739008]).
Proof.
  apply (get_events_reuses_fetched_data
           (Portal.serve Portal.account Portal.may2024) Portal.no_iso
           Portal.me 739008 739009 Portal.fresh
           (VList [Portal.dated_row 739008 [];
                   Portal.dated_row 739009 [Portal.cut_meal; Portal.lovyu]])).
  - reflexivity.
  - intros d Hd. destruct (may2024_rows_cover d Hd) as (day & Hday & Hoi & _).
    exists day. split; [exact Hday |]. intros ->. discriminate Hoi.
Defined.

Lemma get_events_fetches_only_the_range_witness :
  In (PostSchedule 739010) (sent Portal.open_session) \/
  739010 = 739009 \/ 739009 < 739010 <= 739010.
Proof.
  apply (get_events_fetches_only_the_range
           (Portal.serve Portal.account Portal.may2024) Portal.no_iso
           Portal.me 739009 739010 Portal.open_session
           (Err TypeError)
           (mkWorld (Portal.mkState true)
                    [PostSchedule 739009; PostSchedule 739010])).
  - reflexivity.
  - simpl. auto.
Defined.

Lemma get_events_descriptions_link_to_uids_witness :
  Forall links_to_uid
         [Portal.event 739009 "Cut Meal" "Course A" "100401_D.aspx?id=1";
          Portal.event 739009 "Lovyu" "Course B" "100401_D.aspx?id=2"].
Proof.
  apply (get_events_descriptions_link_to_uids
           (Portal.serve Portal.account Portal.may2024) Portal.no_iso
           Portal.me 739008 739009 Portal.open_session _
           (mkWorld (Portal.mkState true) [PostSchedule 739008])).
  reflexivity.
Defined.

Lemma get_events_lists_days_then_items_witness :
  get_events (Portal.serve Portal.account Portal.may2024) Portal.no_iso
    Portal.me 739008 739009 Portal.open_session
  = Some (Ok [Portal.event 739009 "Cut Meal" "Course A" "100401_D.aspx?id=1";
              Portal.event 739009 "Lovyu" "Course B" "100401_D.aspx?id=2"],
          mkWorld (Portal.mkState true) [PostSchedule 739008]).
Proof.
  apply (get_events_lists_days_then_items
           (Portal.serve Portal.account Portal.may2024) Portal.no_iso
           Portal.me 739008 739009 Portal.open_session
           [Portal.dated_row 739008 [];
            Portal.dated_row 739009 [Portal.cut_meal; Portal.lovyu]]
           (mkWorld (Portal.mkState true) [PostSchedule 739008])
           (fun d => if d =? 739009 then [Portal.cut_meal; Portal.lovyu] else [])
           (fun d =>
              if d =? 739009
              then [Portal.event 739009 "Cut Meal" "Course A" "100401_D.aspx?id=1";
                    Portal.event 739009 "Lovyu" "Course B" "100401_D.aspx?id=2"]
              else [])).
  - lia.
  - unfold MAXORDINAL. lia.
  - reflexivity.
  - exact may2024_rows_cover.
Defined.

Lemma get_events_raises_on_missing_first_day_witness :
  get_events (Portal.serve Portal.account Portal.may2024) Portal.no_iso
    Portal.me 739010 739011 Portal.open_session
  = Some (Err TypeError,
          mkWorld (Portal.mkState true) [PostSchedule 739010; PostSchedule 739010]).
Proof.
  apply (get_events_raises_on_missing_first_day
           (Portal.serve Portal.account Portal.may2024) Portal.no_iso
           Portal.me 739010 739011 Portal.open_session
           [Portal.dated_row 739008 [];
            Portal.dated_row 739009 [Portal.cut_meal; Portal.lovyu]]
           (mkWorld (Portal.mkState true) [PostSchedule 739010])
           [Portal.dated_row 739008 [];
            Portal.dated_row 739009 [Portal.cut_meal; Portal.lovyu]]).
  - lia.
  - reflexivity.
  - reflexivity.
  - repeat constructor; simpl; discriminate.
Defined.

(** X21: a [resultlist] that is not a list makes the loop of [get_data]
    raise [TypeError], unless it is the empty str or the empty object, which
    have nothing to loop over and are returned as they are. *)
Theorem normalize_of_what_is_no_list (iso_other : string -> result date)
        (data : value) :
  (forall rows, data <> VList rows) ->
  (data = VStr "" \/ data = VDict [] -> normalize iso_other data = Ok data) /\
  (data <> VStr "" -> data <> VDict [] ->
   normalize iso_other data = Err TypeError).
Proof.
  intros Hlist. split.
  - intros [-> | ->]; reflexivity.
  - intros Hstr Hdict. destruct data; try reflexivity.
    + destruct s; [contradiction | reflexivity].
    + exfalso. eapply Hlist. reflexivity.
    + destruct bindings as [|[k v] rest]; [contradiction | reflexivity].
Qed.

Lemma normalize_of_what_is_no_list_witness :
  normalize Portal.no_iso (VDict [("2024/05/03", VList [])]) = Err TypeError.
Proof.
  apply (normalize_of_what_is_no_list Portal.no_iso); discriminate.
Defined.

Lemma get_data_normalizes_slashed_dates_witness :
  exists rows',
    get_data (Portal.serve Portal.account Portal.may2024) Portal.no_iso
      Portal.me 739008 Portal.open_session
    = (Ok (VList rows'), mkWorld (Portal.mkState true) [PostSchedule 739008]) /\
    normalize Portal.no_iso
      (VList [Portal.row "2024/05/02 00:00:00" [];
              Portal.row "2024/05/03 00:00:00" [Portal.cut_meal; Portal.lovyu]])
    = Ok (VList rows') /\
    Forall2 (fun row' dt => getitem row' "deliverydate" = Ok (VDate dt))
            rows' [739008; 739009] /\
    Forall2 same_but_deliverydate
      [Portal.row "2024/05/02 00:00:00" [];
       Portal.row "2024/05/03 00:00:00" [Portal.cut_meal; Portal.lovyu]]
      rows'.
Proof.
  apply (proj1 (proj2 (get_data_normalizes_slashed_dates
                         (Portal.serve Portal.account Portal.may2024)
                         Portal.no_iso))
               Portal.me 739008 Portal.open_session).
  - reflexivity.
  - constructor; [| constructor; [| constructor]].
    + exists (VStr "2024/05/02 00:00:00"). split; [reflexivity |].
      exists "2024", "05", "02", "00:00:00". repeat split.
    + exists (VStr "2024/05/03 00:00:00"). split; [reflexivity |].
      exists "2024", "05", "03", "00:00:00". repeat split.
Defined.

(** C7 as stated fails on a trailing text of two lines: the pattern's
    [.*] stops at the line feed, what follows it stays behind the
    rewritten date, and [date.fromisoformat] raises [ValueError] on it, so
    that [get_data] returns nothing for a row so dated. *)
Lemma deliverydate_of_two_lines_raises :
  to_date Portal.no_iso (VStr ("2024/05/03 00:00" ++ String "010" "JST"))
  = Err ValueError /\
  normalize Portal.no_iso
    (VList [Portal.row ("2024/05/03 00:00" ++ String "010" "JST")
                       [Portal.cut_meal]])
  = Err ValueError /\
  get_data (Portal.serve Portal.account Portal.two_lines) Portal.no_iso
    Portal.me 739009 Portal.open_session
  = (Err ValueError, mkWorld (Portal.mkState true) [PostSchedule 739009]).
Proof. repeat split. Qed.

Lemma empty_day_adds_no_event_witness :
  (loop_body (Portal.serve Portal.account Portal.may2024) Portal.no_iso
     Portal.me 739008
     (VList [Portal.dated_row 739008 [];
             Portal.dated_row 739009 [Portal.cut_meal; Portal.lovyu]])
     [] Portal.open_session
   = (Ok (VList [Portal.dated_row 739008 [];
                 Portal.dated_row 739009 [Portal.cut_meal; Portal.lovyu]],
          [], 739008 + 1),
      Portal.open_session) /\
   exists outcome,
     get_events_loop (Portal.serve Portal.account Portal.may2024)
       Portal.no_iso 3 Portal.me 739008 739009
       (VList [Portal.dated_row 739008 [];
               Portal.dated_row 739009 [Portal.cut_meal; Portal.lovyu]])
       [] Portal.open_session
     = Some outcome /\
     get_events_loop (Portal.serve Portal.account Portal.may2024)
       Portal.no_iso 2 Portal.me (739008 + 1) 739009
       (VList [Portal.dated_row 739008 [];
               Portal.dated_row 739009 [Portal.cut_meal; Portal.lovyu]])
       [] Portal.open_session
     = Some outcome) /\
  exists evs,
    get_events (Portal.serve Portal.account Portal.may2024) Portal.no_iso
      Portal.me 739008 739009 Portal.open_session
    = Some (Ok evs, mkWorld (Portal.mkState true) [PostSchedule 739008]) /\
    (forall d, 739008 <= d <= 739009 ->
               (if d =? 739009 then [Portal.cut_meal; Portal.lovyu] else [])
               = [] ->
               Forall (fun ev => ~ on_day d ev) evs) /\
    (forall d ev,
        739008 <= d <= 739009 ->
        In ev (if d =? 739009
               then [Portal.event 739009 "Cut Meal" "Course A"
                                  "100401_D.aspx?id=1";
                     Portal.event 739009 "Lovyu" "Course B"
                                  "100401_D.aspx?id=2"]
               else []) ->
        In ev evs).
Proof.
  split.
  - apply (proj1 (empty_day_adds_no_event
                    (Portal.serve Portal.account Portal.may2024)
                    Portal.no_iso)
                 2%nat Portal.me 739008 739009 _ [] Portal.open_session
                 _ (Portal.dated_row 739008 []) Portal.open_session
                 (VList [])).
    + unfold MAXORDINAL. lia.
    + lia.
    + vm_compute. lia.
    + reflexivity.
    + reflexivity.
    + reflexivity.
  - apply (proj2 (empty_day_adds_no_event
                    (Portal.serve Portal.account Portal.may2024)
                    Portal.no_iso)
                 Portal.me 739008 739009 Portal.open_session
                 [Portal.dated_row 739008 [];
                  Portal.dated_row 739009 [Portal.cut_meal; Portal.lovyu]]
                 (mkWorld (Portal.mkState true) [PostSchedule 739008])
                 (fun d => if d =? 739009
                           then [Portal.cut_meal; Portal.lovyu] else [])
                 (fun d =>
                    if d =? 739009
                    then [Portal.event 739009 "Cut Meal" "Course A"
                                       "100401_D.aspx?id=1";
                          Portal.event 739009 "Lovyu" "Course B"
                                       "100401_D.aspx?id=2"]
                    else [])).
    + lia.
    + unfold MAXORDINAL. lia.
    + reflexivity.
    + exact may2024_rows_cover.
Defined.

(** C8 as stated fails on the last day of the calendar: the data fetched
    for 9999-12-31 is one row of that date with no order item, and
    [get_events] raises [OverflowError] when the loop steps past the day. *)
Lemma empty_day_at_date_max_raises :
  get_data (Portal.serve Portal.account Portal.last_day_empty) Portal.no_iso
    Portal.me MAXORDINAL Portal.open_session
  = (Ok (VList [Portal.dated_row MAXORDINAL []]),
     mkWorld (Portal.mkState true) [PostSchedule MAXORDINAL]) /\
  get_events (Portal.serve Portal.account Portal.last_day_empty) Portal.no_iso
    Portal.me MAXORDINAL MAXORDINAL Portal.open_session
  = Some (Err OverflowError,
          mkWorld (Portal.mkState true) [PostSchedule MAXORDINAL]).
Proof. repeat split. Qed.
